(** * TradingAgentRegistry: a shallow embedding of the registry contract

    The development follows [TradingAgentRegistry.sol] function by function.
    Unsigned Solidity integers ([uint256], [bytes32], [address]) are modelled
    as [N], signed ones ([int64], [int32], [int256]) as [Z]; every checked
    arithmetic operation of Solidity 0.8 is written out with its panic.
    Contract bodies run in a small state-and-error monad whose failure case
    still carries the state reached at the point of the [revert], so that
    "nothing was written before the check" is a statement about the body and
    not only about the roll-back of the transaction. *)

From Stdlib Require Import NArith ZArith Lia Strings.Ascii Strings.Byte.
From stdpp Require Import base numbers strings list gmap.

Local Open Scope N_scope.

(** ** Machine integers *)

Definition MAX_UINT256 : N := 2 ^ 256 - 1.

(** [uint64(x)] for [x : int64]: two's complement reinterpretation. *)
Definition uint64_of_int64 (x : Z) : N := Z.to_N (x mod 2 ^ 64).

(** [uint256(x)] for [x : int256]: two's complement reinterpretation. *)
Definition uint256_of_int256 (x : Z) : N := Z.to_N (x mod 2 ^ 256).

(** ** Errors and outcomes *)

Inductive Error :=
| AgentNotFound
| Unauthorized
| InvalidStrategy
| PriceNotUpdated
| CooldownNotExpired
| TriggerNotMet
| ErrorString (reason : string)
| Panic (code : N)
| CalleeReverted.

Inductive Outcome (A : Type) :=
| Done (a : A)
| Fail (e : Error).
Arguments Done {A} a.
Arguments Fail {A} e.

#[export] Instance Outcome_ret : MRet Outcome := λ A a, Done a.
#[export] Instance Outcome_bind : MBind Outcome := λ A B f m,
  match m with
  | Done a => f a
  | Fail e => Fail e
  end.

(** Checked arithmetic of Solidity 0.8: overflow is [Panic(0x11)], division by
    zero is [Panic(0x12)]. *)
Definition checked_add (a b : N) : Outcome N :=
  if a + b <=? MAX_UINT256 then Done (a + b) else Fail (Panic 17).

Definition checked_mul (a b : N) : Outcome N :=
  if a * b <=? MAX_UINT256 then Done (a * b) else Fail (Panic 17).

Definition checked_pow (a b : N) : Outcome N :=
  if a ^ b <=? MAX_UINT256 then Done (a ^ b) else Fail (Panic 17).

Definition checked_div (a b : N) : Outcome N :=
  if b =? 0 then Fail (Panic 18) else Done (a / b).

(** ** Data model *)

Record TradingStrategy := mkStrategy {
  priceFeedId : N;
  triggerPrice : N;
  triggerAbove : bool;
  tokenIn : N;
  tokenOut : N;
  amountIn : N;
  isActive : bool;
  lastExecuted : N;
  cooldownPeriod : N
}.

Record Agent := mkAgent {
  owner : N;
  ensNode : N;
  ensName : string;
  strategy : TradingStrategy;
  createdAt : N;
  exists_ : bool
}.

(** The value every slot of a Solidity mapping holds before it is written. *)
Definition zeroStrategy : TradingStrategy :=
  mkStrategy 0 0 false 0 0 0 false 0 0.

Definition zeroAgent : Agent := mkAgent 0 0 "" zeroStrategy 0 false.

#[export] Instance Agent_inhabited : Inhabited Agent := populate zeroAgent.

(** [PythStructs.Price] *)
Record Price := mkPrice {
  price : Z;
  conf : N;
  expo : Z;
  publishTime : N
}.

Inductive Event :=
| AgentCreated (agentId owner ensNode : N) (ensName : string)
| StrategyUpdated (agentId priceFeedId triggerPrice : N) (triggerAbove : bool)
| TriggerExecuted (agentId priceFeedId currentPrice triggerPrice timestamp : N)
| AgentDeactivated (agentId : N).

(** Contract storage; [baseNode] is immutable. *)
Record Registry := mkRegistry {
  baseNode : N;
  agents : gmap N Agent;
  userAgents : gmap N (list N);
  ensNodeToAgentId : gmap N N;
  agentCount : N
}.

Record Env := mkEnv {
  msg_sender : N;
  msg_value : N;
  block_timestamp : N
}.

(** Field writes through a storage pointer. *)
Definition set_strategy (a : Agent) (s : TradingStrategy) : Agent :=
  mkAgent (owner a) (ensNode a) (ensName a) s (createdAt a) (exists_ a).

Definition set_lastExecuted (a : Agent) (t : N) : Agent :=
  let s := strategy a in
  set_strategy a
    (mkStrategy (priceFeedId s) (triggerPrice s) (triggerAbove s) (tokenIn s)
       (tokenOut s) (amountIn s) (isActive s) t (cooldownPeriod s)).

Definition set_isActive (a : Agent) (b : bool) : Agent :=
  let s := strategy a in
  set_strategy a
    (mkStrategy (priceFeedId s) (triggerPrice s) (triggerAbove s) (tokenIn s)
       (tokenOut s) (amountIn s) b (lastExecuted s) (cooldownPeriod s)).

Definition set_cooldownPeriod (a : Agent) (d : N) : Agent :=
  let s := strategy a in
  set_strategy a
    (mkStrategy (priceFeedId s) (triggerPrice s) (triggerAbove s) (tokenIn s)
       (tokenOut s) (amountIn s) (isActive s) (lastExecuted s) d).

Definition set_agents (f : gmap N Agent → gmap N Agent) (r : Registry) : Registry :=
  mkRegistry (baseNode r) (f (agents r)) (userAgents r) (ensNodeToAgentId r) (agentCount r).

Definition set_userAgents (f : gmap N (list N) → gmap N (list N)) (r : Registry) : Registry :=
  mkRegistry (baseNode r) (agents r) (f (userAgents r)) (ensNodeToAgentId r) (agentCount r).

Definition set_ensNodeToAgentId (f : gmap N N → gmap N N) (r : Registry) : Registry :=
  mkRegistry (baseNode r) (agents r) (userAgents r) (f (ensNodeToAgentId r)) (agentCount r).

Definition set_agentCount (n : N) (r : Registry) : Registry :=
  mkRegistry (baseNode r) (agents r) (userAgents r) (ensNodeToAgentId r) n.

(** ** ABI packing *)

Definition byte_of_N (x : N) : byte := byte_of_ascii (ascii_of_N (x mod 256)).

(** Big-endian bytes of a word, [n] bytes wide. *)
Fixpoint be_bytes (n : nat) (x : N) : list byte :=
  match n with
  | O => []
  | S n' => be_bytes n' (x / 256) ++ [byte_of_N x]
  end.

Definition encodePacked_bytes32 (x : N) : list byte := be_bytes 32 x.

Definition encodePacked_string (s : string) : list byte := String.list_byte_of_string s.

(** ** Price conversion

    The block at lines 202-207 of [checkAndExecuteTrigger], repeated verbatim
    at lines 268-273 of [checkTrigger]. *)
Definition normalize (mantissa exponent : Z) : Outcome N :=
  let currentPrice := uint64_of_int64 mantissa in
  if (exponent <? 0)%Z then
    f ← checked_pow 10 (uint256_of_int256 (- exponent));
    checked_mul currentPrice f
  else
    f ← checked_pow 10 (uint256_of_int256 exponent);
    checked_div currentPrice f.

Definition triggerMet (s : TradingStrategy) (currentPrice : N) : bool :=
  if triggerAbove s then triggerPrice s <=? currentPrice
  else currentPrice <=? triggerPrice s.

Definition _isValidStrategy (s : TradingStrategy) : bool :=
  negb (priceFeedId s =? 0) && (0 <? triggerPrice s) &&
  negb (tokenIn s =? 0) && negb (tokenOut s =? 0).

(** ** External collaborators

    [IPyth] and [IENS] are interfaces of other contracts; their code is not
    part of the registry. Each is a type class over the collaborator's own
    state; [None] is a call that reverts. [keccak256] is the EVM builtin. *)

Class IPyth (O : Type) := {
  (** [updatePriceFeeds{value: v}(updateData)] at block time [now] *)
  updatePriceFeeds : list (list byte) → N → N → O → option O;
  (** [getPriceNoOlderThan(id, age)] at block time [now] *)
  getPriceNoOlderThan : N → N → N → O → option Price;
  (** [getPrice(id)] at block time [now] *)
  getPrice : N → N → O → option Price
}.

Class IENS (E : Type) := {
  (** [setSubnodeRecord(node, label, owner, resolver, ttl)] *)
  setSubnodeRecord : N → N → N → N → N → E → option (N * E)
}.

Class Keccak := keccak256 : list byte → N.

(** ** The contract *)

Section Contract.
Context {O E : Type} `{!IPyth O, !IENS E, !Keccak}.

(** The registry's storage, the state of the two collaborators, and the
    event log. *)
Record Chain := mkChain {
  registry : Registry;
  pythState : O;
  ensState : E;
  events : list Event
}.

(** A contract body: from a chain state to an outcome and the state reached
    when the body stopped. *)
Definition M (A : Type) : Type := Chain → Outcome A * Chain.

#[export] Instance M_ret : MRet M := λ A a c, (Done a, c).
#[export] Instance M_bind : MBind M := λ A B f m c,
  match m c with
  | (Done a, c') => f a c'
  | (Fail e, c') => (Fail e, c')
  end.

Definition revert {A} (e : Error) : M A := λ c, (Fail e, c).

Definition lift {A} (o : Outcome A) : M A := λ c, (o, c).

Definition sload {A} (f : Registry → A) : M A := λ c, (Done (f (registry c)), c).

Definition sstore (f : Registry → Registry) : M unit := λ c,
  (Done (), mkChain (f (registry c)) (pythState c) (ensState c) (events c)).

Definition emit (ev : Event) : M unit := λ c,
  (Done (), mkChain (registry c) (pythState c) (ensState c) (events c ++ [ev])).

(** State-changing call into the oracle. *)
Definition pyth_call (f : O → option O) : M unit := λ c,
  match f (pythState c) with
  | Some o => (Done (), mkChain (registry c) o (ensState c) (events c))
  | None => (Fail CalleeReverted, c)
  end.

(** Read-only call into the oracle. *)
Definition pyth_view {A} (f : O → option A) : M A := λ c,
  match f (pythState c) with
  | Some a => (Done a, c)
  | None => (Fail CalleeReverted, c)
  end.

Definition ens_call {A} (f : E → option (A * E)) : M A := λ c,
  match f (ensState c) with
  | Some (a, e) => (Done a, mkChain (registry c) (pythState c) e (events c))
  | None => (Fail CalleeReverted, c)
  end.

Definition createAgent (env : Env) (agentId : N) (ensLabel : string)
    (strat : TradingStrategy) : M N :=
  a ← sload (λ r, agents r !!! agentId);
  if exists_ a then revert (ErrorString "Agent already exists") else
  if negb (_isValidStrategy strat) then revert InvalidStrategy else
  base ← sload baseNode;
  let label := keccak256 (encodePacked_string ensLabel) in
  let node := keccak256 (encodePacked_bytes32 base ++ encodePacked_bytes32 label) in
  _ ← ens_call (setSubnodeRecord base label (msg_sender env) 0 0);
  sstore (set_agents (λ m, <[agentId :=
    mkAgent (msg_sender env) node (ensLabel +:+ ".yourdomain.eth") strat
      (block_timestamp env) true]> m));;
  sstore (set_userAgents (λ m,
    <[msg_sender env := (m !!! msg_sender env) ++ [agentId]]> m));;
  sstore (set_ensNodeToAgentId (λ m, <[node := agentId]> m));;
  n ← sload agentCount;
  n' ← lift (checked_add n 1);
  sstore (set_agentCount n');;
  name ← sload (λ r, ensName (agents r !!! agentId));
  emit (AgentCreated agentId (msg_sender env) node name);;
  mret node.

Definition updateStrategy (env : Env) (agentId : N)
    (newStrategy : TradingStrategy) : M unit :=
  agent ← sload (λ r, agents r !!! agentId);
  if negb (exists_ agent) then revert AgentNotFound else
  if negb (owner agent =? msg_sender env) then revert Unauthorized else
  if negb (_isValidStrategy newStrategy) then revert InvalidStrategy else
  sstore (set_agents (λ m, <[agentId := set_strategy (m !!! agentId) newStrategy]> m));;
  emit (StrategyUpdated agentId (priceFeedId newStrategy)
          (triggerPrice newStrategy) (triggerAbove newStrategy)).

Definition checkAndExecuteTrigger (env : Env) (agentId : N)
    (updateData : list (list byte)) : M unit :=
  agent ← sload (λ r, agents r !!! agentId);
  if negb (exists_ agent) then revert AgentNotFound else
  if negb (isActive (strategy agent)) then revert (ErrorString "Strategy not active") else
  let strat := strategy agent in
  (if (0 <? length updateData)%nat
   then pyth_call (updatePriceFeeds updateData (msg_value env) (block_timestamp env))
   else mret ());;
  p ← pyth_view (getPriceNoOlderThan (priceFeedId strat) 300 (block_timestamp env));
  if publishTime p =? 0 then revert PriceNotUpdated else
  ready ← lift (checked_add (lastExecuted strat) (cooldownPeriod strat));
  if block_timestamp env <? ready then revert CooldownNotExpired else
  currentPrice ← lift (normalize (price p) (expo p));
  if negb (triggerMet strat currentPrice) then revert TriggerNotMet else
  sstore (set_agents (λ m,
    <[agentId := set_lastExecuted (m !!! agentId) (block_timestamp env)]> m));;
  emit (TriggerExecuted agentId (priceFeedId strat) currentPrice
          (triggerPrice strat) (block_timestamp env)).

Definition deactivateAgent (env : Env) (agentId : N) : M unit :=
  agent ← sload (λ r, agents r !!! agentId);
  if negb (exists_ agent) then revert AgentNotFound else
  if negb (owner agent =? msg_sender env) then revert Unauthorized else
  sstore (set_agents (λ m, <[agentId := set_isActive (m !!! agentId) false]> m));;
  emit (AgentDeactivated agentId).

Definition getAgent (agentId : N) : M Agent :=
  a ← sload (λ r, agents r !!! agentId);
  if negb (exists_ a) then revert AgentNotFound else
  sload (λ r, agents r !!! agentId).

Definition getUserAgents (user : N) : M (list N) :=
  sload (λ r, userAgents r !!! user).

Definition checkTrigger (env : Env) (agentId : N) : M (bool * N) :=
  agent ← sload (λ r, agents r !!! agentId);
  if negb (exists_ agent) then revert AgentNotFound else
  p ← pyth_view (getPrice (priceFeedId (strategy agent)) (block_timestamp env));
  priceValue ← lift (normalize (price p) (expo p));
  mret (triggerMet (strategy agent) priceValue, priceValue).

(** ** Transactions

    A transaction commits the state its body reached, or reverts to the state
    it started from. *)
Inductive Receipt (A : Type) :=
| Committed (ret : A) (c : Chain)
| Reverted (e : Error) (c : Chain).
Arguments Committed {A} ret c.
Arguments Reverted {A} e c.

Definition transact {A} (body : M A) (c : Chain) : Receipt A :=
  match body c with
  | (Done a, c') => Committed a c'
  | (Fail e, _) => Reverted e c
  end.

Definition post {A} (r : Receipt A) : Chain :=
  match r with
  | Committed _ c => c
  | Reverted _ c => c
  end.

Definition committed {A} (r : Receipt A) : bool :=
  match r with
  | Committed _ _ => true
  | Reverted _ _ => false
  end.

(** The external functions of the contract, as calls. *)
Inductive Call :=
| CreateAgent (agentId : N) (ensLabel : string) (strat : TradingStrategy)
| UpdateStrategy (agentId : N) (newStrategy : TradingStrategy)
| CheckAndExecuteTrigger (agentId : N) (updateData : list (list byte))
| DeactivateAgent (agentId : N)
| GetAgent (agentId : N)
| GetUserAgents (user : N)
| CheckTrigger (agentId : N).

Definition void {A} (m : M A) : M unit := _ ← m; mret ().

Definition dispatch (env : Env) (call : Call) : M unit :=
  match call with
  | CreateAgent agentId ensLabel strat => void (createAgent env agentId ensLabel strat)
  | UpdateStrategy agentId newStrategy => updateStrategy env agentId newStrategy
  | CheckAndExecuteTrigger agentId updateData => checkAndExecuteTrigger env agentId updateData
  | DeactivateAgent agentId => deactivateAgent env agentId
  | GetAgent agentId => void (getAgent agentId)
  | GetUserAgents user => void (getUserAgents user)
  | CheckTrigger agentId => void (checkTrigger env agentId)
  end.

(** What can happen to the chain between two observations: a transaction to
    the registry, or the collaborators' state moving on its own (other
    parties pushing prices or registering names). Neither touches the
    registry's storage except through [dispatch]. *)
Inductive Action :=
| Tx (env : Env) (call : Call)
| Outside (o : O) (e : E).

Definition step (c : Chain) (a : Action) : Chain :=
  match a with
  | Tx env call => post (transact (dispatch env call) c)
  | Outside o e => mkChain (registry c) o e (events c)
  end.

Definition run (c : Chain) (trace : list Action) : Chain := fold_left step trace c.

Definition agentOf (c : Chain) (agentId : N) : Agent := agents (registry c) !!! agentId.

(** A call that overwrites the [isActive] flag of [agentId] with [true]. *)
Definition reactivates (agentId : N) (a : Action) : bool :=
  match a with
  | Tx _ (UpdateStrategy agentId' newStrategy) =>
      (agentId' =? agentId) && isActive newStrategy
  | _ => false
  end.

End Contract.

Arguments Chain O E : clear implicits.
Arguments M O E A : clear implicits.
Arguments Receipt O E A : clear implicits.
Arguments Action O E : clear implicits.
Arguments Committed {O E A} ret c.
Arguments Reverted {O E A} e c.
Arguments Tx {O E} env call.
Arguments Outside {O E} o e.

(** ** A concrete chain

    Small instances of the collaborators, used to run the contract on
    explicit inputs. The oracle keeps one price per feed and charges one wei
    per update blob; the name registry records the owner of each subnode. *)

Module Demo.

Definition Oracle : Type := gmap N Price.

Definition Names : Type := gmap N N.

#[global] Instance demo_keccak : Keccak := λ bs,
  fold_left (λ h b, (h * 257 + Byte.to_N b + 1) mod 2 ^ 256) bs 0.

#[global] Instance demo_pyth : IPyth Oracle := {
  updatePriceFeeds updateData value now o :=
    if N.of_nat (length updateData) <=? value then Some o else None;
  getPriceNoOlderThan id age now o :=
    match o !! id with
    | Some p => if now - publishTime p <=? age then Some p else None
    | None => None
    end;
  getPrice id now o := o !! id
}.

#[global] Instance demo_ens : IENS Names := {
  setSubnodeRecord node label owner resolver ttl e :=
    let sub := keccak256 (encodePacked_bytes32 node ++ encodePacked_bytes32 label) in
    Some (sub, <[sub := owner]> e)
}.

Definition alice : N := 100.
Definition bob : N := 200.
Definition agent1 : N := 7.

(** ETH/USD at 3000 dollars with Pyth's usual exponent of -8. *)
Definition ethUsd : Price := mkPrice 300000000000 0 (-8) 100000.

Definition genesis : Chain Oracle Names :=
  mkChain (mkRegistry 0 ∅ ∅ ∅ 0) {[ 1 := ethUsd ]} ∅ [].

Definition buyDip : TradingStrategy :=
  mkStrategy 1 300000000000 true 10 11 0 true 0 3600.

(** The same strategy, supplied switched off and with a recorded execution. *)
Definition dormant : TradingStrategy :=
  mkStrategy 1 300000000000 true 10 11 0 false 5 3600.

Definition at_time (who t : N) : Env := mkEnv who 0 t.

(** Alice registers [agent1] at time 100000. *)
Definition created : Chain Oracle Names :=
  post (transact (createAgent (at_time alice 100000) agent1 "my-agent" buyDip) genesis).

(** The trigger fires at time 100100. *)
Definition executed : Chain Oracle Names :=
  post (transact (checkAndExecuteTrigger (at_time bob 100100) agent1 []) created).

(** Alice switches the agent off. *)
Definition deactivated : Chain Oracle Names :=
  post (transact (deactivateAgent (at_time alice 100200) agent1) executed).

(** Alice replaces the strategy with the one she created the agent with. *)
Definition replaced : Chain Oracle Names :=
  post (transact (updateStrategy (at_time alice 100250) agent1 buyDip) deactivated).

(** The call behind [executed], as an action. *)
Definition fire : Action Oracle Names :=
  Tx (at_time bob 100100) (CheckAndExecuteTrigger agent1 []).

(** One cooldown after the execution, with a fresh price published. *)
Definition refreshed : Chain Oracle Names :=
  step executed (Outside {[ 1 := mkPrice 300000000000 0 (-8) 103700 ]} (ensState executed)).

(** What others do while the agent is switched off: Alice replaces the
    strategy with a dormant one, Bob registers an agent of his own, the
    oracle moves. *)
Definition quiet_trace : list (Action Oracle Names) :=
  [ Tx (at_time alice 100210) (UpdateStrategy agent1 dormant);
    Tx (at_time bob 100220) (CreateAgent 8 "other" buyDip);
    Outside {[ 1 := mkPrice 310000000000 0 (-8) 100230 ]} ∅;
    Tx (at_time bob 100240) (DeactivateAgent agent1) ].

End Demo.

(** ** Deployment and reachable states *)

(** The constructor: [baseNode] is set, every mapping is empty and the
    counter is zero. The immutables [pyth] and [ens] are the two
    collaborator instances the contract section is parametrised by. *)
Definition constructor (_baseNode : N) : Registry :=
  mkRegistry _baseNode ∅ ∅ ∅ 0.

(** A call that replaces the whole strategy of [agentId]. *)
Definition replaces {O E : Type} (agentId : N) (a : Action O E) : bool :=
  match a with
  | Tx _ (UpdateStrategy agentId' _) => agentId' =? agentId
  | _ => false
  end.

(** What the storage of the registry satisfies in every state reached from
    deployment: the agents map holds only existing agents with valid
    strategies, the counter is its size, each owner's list holds exactly the
    ids of the agents that owner holds, once each, and the node index points
    at existing agents carrying that node. *)
Definition consistent (r : Registry) : Prop :=
  (∀ id a, agents r !! id = Some a →
     exists_ a = true ∧ _isValidStrategy (strategy a) = true)
  ∧ agentCount r = N.of_nat (size (agents r))
  ∧ (∀ u, NoDup (userAgents r !!! u))
  ∧ (∀ u id, id ∈ userAgents r !!! u ↔ ∃ a, agents r !! id = Some a ∧ owner a = u)
  ∧ (∀ node id, ensNodeToAgentId r !! node = Some id →
       ∃ a, agents r !! id = Some a ∧ ensNode a = node).

(** The fields of an agent that no function of the contract writes after
    creation. *)
Definition identity (a : Agent) : N * N * string * N * bool :=
  (owner a, ensNode a, ensName a, createdAt a, exists_ a).

(** ** PythPriceConsumer

    The second contract of the repository, [PythPriceConsumer.sol]: it has no
    storage of its own, every function is a call into the oracle. *)

Module PythPriceConsumer.
Section Consumer.
Context {O E : Type} `{!IPyth O}.

Definition ETH_USD_PRICE_FEED_ID : N :=
  0xff61491a931112ddf1bd8147cd1b641375f79f5825126d665480874634fd0ace.

Definition BTC_USD_PRICE_FEED_ID : N :=
  0xe62df6c8b4a85fe1a67db44dc12de5db330f7ac66b72dc658afedf0f4a415b43.

Definition updatePriceFeeds (env : Env) (updateData : list (list byte)) : M O E unit :=
  pyth_call (updatePriceFeeds updateData (msg_value env) (block_timestamp env)).

Definition getLatestPrice (env : Env) (priceId : N) : M O E (Z * N * N) :=
  pythPrice ← pyth_view (getPrice priceId (block_timestamp env));
  mret (price pythPrice, conf pythPrice, publishTime pythPrice).

Definition getEthPrice (env : Env) : M O E (Z * N * N) :=
  getLatestPrice env ETH_USD_PRICE_FEED_ID.

Definition getBtcPrice (env : Env) : M O E (Z * N * N) :=
  getLatestPrice env BTC_USD_PRICE_FEED_ID.

Definition getPriceNoOlderThan (env : Env) (priceId age : N) : M O E (Z * N * N) :=
  pythPrice ← pyth_view (getPriceNoOlderThan priceId age (block_timestamp env));
  mret (price pythPrice, conf pythPrice, publishTime pythPrice).

Definition getPriceStruct (env : Env) (priceId : N) : M O E Price :=
  pyth_view (getPrice priceId (block_timestamp env)).

End Consumer.
End PythPriceConsumer.

(** ** Further fixtures on the concrete chain *)

Module Fixtures.

(** [Demo.buyDip] with a zero trigger price: not a valid strategy. *)
Definition unpriced : TradingStrategy :=
  mkStrategy 1 0 true 10 11 0 true 0 3600.

(** A sell strategy on the same feed, far below the market. *)
Definition sellLow : TradingStrategy :=
  mkStrategy 1 100 false 10 11 0 true 0 60.

(** Bob registers agent 8 under the label Alice already used. *)
Definition squatted : Chain Demo.Oracle Demo.Names :=
  post (transact (createAgent (Demo.at_time Demo.bob 100020) 8 "my-agent" sellLow)
          Demo.created).

(** A blob of update data, and the fee the concrete oracle asks for it. *)
Definition blob : list (list byte) := [[x01; x02]].

Definition paying (who value t : N) : Env := mkEnv who value t.

(** A feed that reports a negative mantissa. *)
Definition negative : Price := mkPrice (-1) 0 (-8) 100000.

(** [Demo.buyDip] turned around: sell at or below the same threshold. *)
Definition sellHigh : TradingStrategy :=
  mkStrategy 1 300000000000 false 10 11 0 true 0 3600.

(** The node of the label "my-agent" under base node 0. *)
Definition node1 : N :=
  keccak256 (encodePacked_bytes32 0 ++
             encodePacked_bytes32 (keccak256 (encodePacked_string "my-agent"))).

(** A name registry that refuses every subname. *)
#[global] Instance closed_ens : IENS unit := {
  setSubnodeRecord node label owner resolver ttl e := None
}.

Definition closed : Chain Demo.Oracle unit :=
  mkChain (constructor 0) {[ 1 := Demo.ethUsd ]} () [].

(** A history from deployment: Alice registers [agent1], the trigger fires,
    Alice switches the agent off, Bob registers agent 8 under the same
    label. *)
Definition history : list (Action Demo.Oracle Demo.Names) :=
  [ Tx (Demo.at_time Demo.alice 100000) (CreateAgent Demo.agent1 "my-agent" Demo.buyDip);
    Demo.fire;
    Tx (Demo.at_time Demo.alice 100200) (DeactivateAgent Demo.agent1);
    Tx (Demo.at_time Demo.bob 100220) (CreateAgent 8 "my-agent" sellLow) ].

Definition deployed : Chain Demo.Oracle Demo.Names :=
  mkChain (constructor 0) {[ 1 := Demo.ethUsd ]} ∅ [].

(** What happens after the execution of [Demo.executed] without the strategy
    of [agent1] being replaced: Bob registers an agent, the oracle moves, and
    somebody tries to execute [agent1] again. *)
Definition busy_trace : list (Action Demo.Oracle Demo.Names) :=
  [ Tx (Demo.at_time Demo.bob 100220) (CreateAgent 8 "other" Demo.buyDip);
    Outside {[ 1 := mkPrice 310000000000 0 (-8) 103000 ]} ∅;
    Tx (Demo.at_time Demo.bob 103000) (CheckAndExecuteTrigger Demo.agent1 []) ].

End Fixtures.

(** * Properties *)

(** ** Arithmetic helpers *)

Lemma checked_add_inv (a b r : N) :
  checked_add a b = Done r → r = a + b ∧ a + b <= MAX_UINT256.
Proof.
  unfold checked_add. destruct (N.leb_spec (a + b) MAX_UINT256); [|discriminate].
  intros [= <-]. split; [reflexivity | assumption].
Qed.

Lemma checked_add_fits (a b : N) :
  a + b <= MAX_UINT256 → checked_add a b = Done (a + b).
Proof.
  intros Hle. unfold checked_add. apply N.leb_le in Hle. rewrite Hle. reflexivity.
Qed.

Lemma uint64_of_nonneg (m : Z) :
  (0 <= m < 2 ^ 63)%Z → uint64_of_int64 m = Z.to_N m.
Proof.
  intros Hm. unfold uint64_of_int64. rewrite Z.mod_small; [reflexivity | lia].
Qed.

Lemma uint64_of_neg (m : Z) :
  (- 2 ^ 63 <= m < 0)%Z → uint64_of_int64 m = Z.to_N (m + 2 ^ 64).
Proof.
  intros Hm. unfold uint64_of_int64. f_equal.
  symmetry. apply Z.mod_unique with (q := (-1)%Z); lia.
Qed.

Lemma uint256_of_small (e : Z) :
  (0 <= e <= 2 ^ 31)%Z → uint256_of_int256 e = Z.to_N e.
Proof.
  intros He. unfold uint256_of_int256. rewrite Z.mod_small; [reflexivity | lia].
Qed.

(** A power of ten fits in [uint256] exactly up to [10^77]. *)
Lemma pow10_fits (k : N) : (10 ^ k <=? MAX_UINT256) = (k <=? 77).
Proof.
  destruct (N.leb_spec k 77) as [Hk|Hk].
  - apply N.leb_le. transitivity (10 ^ 77).
    + apply N.pow_le_mono_r; [discriminate | exact Hk].
    + vm_compute. discriminate.
  - apply N.leb_gt. apply N.lt_le_trans with (10 ^ 78).
    + vm_compute. reflexivity.
    + apply N.pow_le_mono_r; [discriminate | lia].
Qed.

Lemma uint64_of_int64_bound (m : Z) : uint64_of_int64 m <= 2 ^ 64 - 1.
Proof.
  unfold uint64_of_int64.
  pose proof (Z.mod_pos_bound m (2 ^ 64) ltac:(lia)) as Hb. lia.
Qed.

Lemma normalize_negative_exponent (m e : Z) :
  (- 2 ^ 31 <= e < 0)%Z →
  normalize m e =
    if (Z.to_N (- e) <=? 77) && (uint64_of_int64 m * 10 ^ Z.to_N (- e) <=? MAX_UINT256)
    then Done (uint64_of_int64 m * 10 ^ Z.to_N (- e)) else Fail (Panic 17).
Proof.
  intros He. unfold normalize.
  destruct (Z.ltb_spec e 0) as [_|]; [|lia].
  rewrite uint256_of_small by lia.
  unfold checked_pow, checked_mul, mbind, Outcome_bind. rewrite pow10_fits.
  destruct (Z.to_N (- e) <=? 77); reflexivity.
Qed.

Lemma normalize_nonnegative_exponent (m e : Z) :
  (0 <= e < 2 ^ 31)%Z →
  normalize m e =
    if Z.to_N e <=? 77 then Done (uint64_of_int64 m / 10 ^ Z.to_N e) else Fail (Panic 17).
Proof.
  intros He. unfold normalize.
  destruct (Z.ltb_spec e 0) as [|_]; [lia|].
  rewrite uint256_of_small by lia.
  unfold checked_pow, checked_div, mbind, Outcome_bind. rewrite pow10_fits.
  destruct (Z.to_N e <=? 77); [|reflexivity].
  destruct (N.eqb_spec (10 ^ Z.to_N e) 0) as [Hz|]; [|reflexivity].
  apply N.pow_nonzero in Hz; [contradiction | discriminate].
Qed.

Section Properties.
Context {O E : Type} `{!IPyth O, !IENS E, !Keccak}.

Implicit Types (c : Chain O E) (env : Env) (a : Agent).

(** ** Each body, run on a chain state *)

Ltac run_body :=
  cbv [mbind M_bind mret M_ret sload sstore emit revert lift void
       pyth_call pyth_view ens_call]; cbn [registry pythState ensState events].

Lemma updateStrategy_run env agentId newStrategy c :
  updateStrategy env agentId newStrategy c =
    let a := agentOf c agentId in
    if negb (exists_ a) then (Fail AgentNotFound, c)
    else if negb (owner a =? msg_sender env) then (Fail Unauthorized, c)
    else if negb (_isValidStrategy newStrategy) then (Fail InvalidStrategy, c)
    else (Done (),
          mkChain (set_agents (λ m, <[agentId := set_strategy a newStrategy]> m) (registry c))
            (pythState c) (ensState c)
            (events c ++ [StrategyUpdated agentId (priceFeedId newStrategy)
                            (triggerPrice newStrategy) (triggerAbove newStrategy)])).
Proof.
  unfold updateStrategy, agentOf. run_body.
  destruct (exists_ _); [|reflexivity].
  destruct (_ =? _); [|reflexivity].
  destruct (_isValidStrategy _); reflexivity.
Qed.

Lemma deactivateAgent_run env agentId c :
  deactivateAgent env agentId c =
    let a := agentOf c agentId in
    if negb (exists_ a) then (Fail AgentNotFound, c)
    else if negb (owner a =? msg_sender env) then (Fail Unauthorized, c)
    else (Done (),
          mkChain (set_agents (λ m, <[agentId := set_isActive a false]> m) (registry c))
            (pythState c) (ensState c) (events c ++ [AgentDeactivated agentId])).
Proof.
  unfold deactivateAgent, agentOf. run_body.
  destruct (exists_ _); [|reflexivity].
  destruct (_ =? _); reflexivity.
Qed.

Lemma getAgent_run agentId c :
  getAgent agentId c =
    if exists_ (agentOf c agentId) then (Done (agentOf c agentId), c)
    else (Fail AgentNotFound, c).
Proof.
  unfold getAgent, agentOf. run_body. destruct (exists_ _); reflexivity.
Qed.

Lemma createAgent_run env agentId ensLabel strat c :
  createAgent env agentId ensLabel strat c =
    let r := registry c in
    let label := keccak256 (encodePacked_string ensLabel) in
    let node := keccak256 (encodePacked_bytes32 (baseNode r) ++ encodePacked_bytes32 label) in
    let a' := mkAgent (msg_sender env) node (ensLabel +:+ ".yourdomain.eth") strat
                (block_timestamp env) true in
    if exists_ (agentOf c agentId) then (Fail (ErrorString "Agent already exists"), c)
    else if negb (_isValidStrategy strat) then (Fail InvalidStrategy, c)
    else match setSubnodeRecord (baseNode r) label (msg_sender env) 0 0 (ensState c) with
         | None => (Fail CalleeReverted, c)
         | Some (_, e') =>
             let r1 := mkRegistry (baseNode r) (<[agentId := a']> (agents r))
                         (<[msg_sender env := (userAgents r !!! msg_sender env) ++ [agentId]]>
                            (userAgents r))
                         (<[node := agentId]> (ensNodeToAgentId r)) (agentCount r) in
             if agentCount r + 1 <=? MAX_UINT256 then
               (Done node,
                mkChain (set_agentCount (agentCount r + 1) r1) (pythState c) e'
                  (events c ++ [AgentCreated agentId (msg_sender env) node
                                  (ensLabel +:+ ".yourdomain.eth")]))
             else (Fail (Panic 17), mkChain r1 (pythState c) e' (events c))
         end.
Proof.
  unfold createAgent, agentOf. run_body.
  destruct (exists_ _); [reflexivity|].
  destruct (_isValidStrategy _); [|reflexivity]. cbn [negb].
  destruct (setSubnodeRecord _ _ _ _ _ _) as [[nd e']|]; [|reflexivity].
  unfold checked_add, set_agentCount, set_ensNodeToAgentId, set_userAgents, set_agents.
  cbn [registry pythState ensState events agents userAgents ensNodeToAgentId
       agentCount baseNode].
  destruct (_ <=? _); [|reflexivity].
  cbn [registry pythState ensState events agents userAgents ensNodeToAgentId
       agentCount baseNode].
  rewrite lookup_total_insert_eq. reflexivity.
Qed.

Lemma checkAndExecuteTrigger_run env agentId updateData c :
  checkAndExecuteTrigger env agentId updateData c =
    let a := agentOf c agentId in
    let s := strategy a in
    let now := block_timestamp env in
    if negb (exists_ a) then (Fail AgentNotFound, c)
    else if negb (isActive s) then (Fail (ErrorString "Strategy not active"), c)
    else
      match (if (0 <? length updateData)%nat
             then updatePriceFeeds updateData (msg_value env) now (pythState c)
             else Some (pythState c)) with
      | None => (Fail CalleeReverted, c)
      | Some o' =>
          let c1 := mkChain (registry c) o' (ensState c) (events c) in
          match getPriceNoOlderThan (priceFeedId s) 300 now o' with
          | None => (Fail CalleeReverted, c1)
          | Some p =>
              if publishTime p =? 0 then (Fail PriceNotUpdated, c1)
              else match checked_add (lastExecuted s) (cooldownPeriod s) with
                   | Fail e => (Fail e, c1)
                   | Done ready =>
                       if now <? ready then (Fail CooldownNotExpired, c1)
                       else match normalize (price p) (expo p) with
                            | Fail e => (Fail e, c1)
                            | Done v =>
                                if negb (triggerMet s v) then (Fail TriggerNotMet, c1)
                                else (Done (),
                                      mkChain
                                        (set_agents
                                           (λ m, <[agentId := set_lastExecuted a now]> m)
                                           (registry c))
                                        o' (ensState c)
                                        (events c ++
                                           [TriggerExecuted agentId (priceFeedId s) v
                                              (triggerPrice s) now]))
                            end
                   end
          end
      end.
Proof.
  destruct c as [r o e evs].
  unfold checkAndExecuteTrigger, agentOf. run_body.
  destruct (exists_ _); [|reflexivity].
  destruct (isActive _); [|reflexivity]. cbn [negb].
  destruct (0 <? length updateData)%nat.
  - destruct (updatePriceFeeds _ _ _ _) as [o'|]; [|reflexivity].
    cbn [registry pythState ensState events].
    destruct (getPriceNoOlderThan _ _ _ _) as [p|]; [|reflexivity].
    destruct (publishTime p =? 0); [reflexivity|].
    destruct (checked_add _ _) as [ready|]; [|reflexivity].
    destruct (_ <? ready); [reflexivity|].
    destruct (normalize _ _) as [v|]; [|reflexivity].
    destruct (triggerMet _ v); reflexivity.
  - cbn [registry pythState ensState events].
    destruct (getPriceNoOlderThan _ _ _ _) as [p|]; [|reflexivity].
    destruct (publishTime p =? 0); [reflexivity|].
    destruct (checked_add _ _) as [ready|]; [|reflexivity].
    destruct (_ <? ready); [reflexivity|].
    destruct (normalize _ _) as [v|]; [|reflexivity].
    destruct (triggerMet _ v); reflexivity.
Qed.

Lemma checkTrigger_run env agentId c :
  checkTrigger env agentId c =
    let s := strategy (agentOf c agentId) in
    if negb (exists_ (agentOf c agentId)) then (Fail AgentNotFound, c)
    else match getPrice (priceFeedId s) (block_timestamp env) (pythState c) with
         | None => (Fail CalleeReverted, c)
         | Some p =>
             match normalize (price p) (expo p) with
             | Fail e => (Fail e, c)
             | Done v => (Done (triggerMet s v, v), c)
             end
         end.
Proof.
  unfold checkTrigger, agentOf. run_body.
  destruct (exists_ _); [|reflexivity]. cbn [negb].
  destruct (getPrice _ _ _) as [p|]; [|reflexivity].
  destruct (normalize _ _); reflexivity.
Qed.

(** ** Successful trigger executions, characterised *)

Lemma checkAndExecuteTrigger_committed_inv env agentId updateData c u c' :
  transact (checkAndExecuteTrigger env agentId updateData) c = Committed u c' →
  let a := agentOf c agentId in
  let s := strategy a in
  let now := block_timestamp env in
  ∃ o' p v,
    exists_ a = true ∧ isActive s = true ∧
    (if (0 <? length updateData)%nat
     then updatePriceFeeds updateData (msg_value env) now (pythState c)
     else Some (pythState c)) = Some o' ∧
    getPriceNoOlderThan (priceFeedId s) 300 now o' = Some p ∧
    publishTime p ≠ 0 ∧
    lastExecuted s + cooldownPeriod s <= now ∧
    normalize (price p) (expo p) = Done v ∧
    triggerMet s v = true ∧
    c' = mkChain (set_agents (λ m, <[agentId := set_lastExecuted a now]> m) (registry c))
           o' (ensState c)
           (events c ++ [TriggerExecuted agentId (priceFeedId s) v (triggerPrice s) now]).
Proof.
  unfold transact. rewrite checkAndExecuteTrigger_run. cbv zeta.
  destruct (exists_ _); [|discriminate].
  destruct (isActive _); [|discriminate]. cbn [negb].
  destruct (if (0 <? length updateData)%nat then _ else _) as [o'|] eqn:Hupd;
    [|discriminate].
  destruct (getPriceNoOlderThan _ _ _ _) as [p|] eqn:Hget; [|discriminate].
  destruct (N.eqb_spec (publishTime p) 0) as [|Hpub]; [discriminate|].
  destruct (checked_add _ _) as [ready|] eqn:Hadd; [|discriminate].
  apply checked_add_inv in Hadd as [-> Hfit].
  destruct (N.ltb_spec (block_timestamp env)
              (lastExecuted (strategy (agentOf c agentId)) +
               cooldownPeriod (strategy (agentOf c agentId)))) as [|Hcool];
    [discriminate|].
  destruct (normalize _ _) as [v|] eqn:Hnorm; [|discriminate].
  destruct (triggerMet _ v) eqn:Hmet; [|discriminate].
  cbn [negb]. intros [= _ <-].
  exists o', p, v. repeat split; first [assumption | reflexivity].
Qed.

Lemma checkAndExecuteTrigger_commits env agentId updateData c o' p v :
  let a := agentOf c agentId in
  let s := strategy a in
  let now := block_timestamp env in
  exists_ a = true → isActive s = true →
  (if (0 <? length updateData)%nat
   then updatePriceFeeds updateData (msg_value env) now (pythState c)
   else Some (pythState c)) = Some o' →
  getPriceNoOlderThan (priceFeedId s) 300 now o' = Some p →
  publishTime p ≠ 0 →
  lastExecuted s + cooldownPeriod s <= MAX_UINT256 →
  lastExecuted s + cooldownPeriod s <= now →
  normalize (price p) (expo p) = Done v →
  triggerMet s v = true →
  transact (checkAndExecuteTrigger env agentId updateData) c =
    Committed ()
      (mkChain (set_agents (λ m, <[agentId := set_lastExecuted a now]> m) (registry c))
         o' (ensState c)
         (events c ++ [TriggerExecuted agentId (priceFeedId s) v (triggerPrice s) now])).
Proof.
  intros a s now Hex Hact Hupd Hget Hpub Hfit Hcool Hnorm Hmet.
  unfold transact. rewrite checkAndExecuteTrigger_run. cbv zeta.
  fold a. fold s. fold now.
  rewrite Hex, Hact. cbn [negb]. rewrite Hupd, Hget.
  apply N.eqb_neq in Hpub. rewrite Hpub.
  rewrite (checked_add_fits _ _ Hfit).
  apply N.ltb_ge in Hcool. rewrite Hcool, Hnorm, Hmet. reflexivity.
Qed.

(** ** One step of the chain, seen from one agent *)

Lemma post_void {A} (m : M O E A) c :
  post (transact (void m) c) = post (transact m c).
Proof.
  unfold transact, void. run_body. destruct (m c) as [[r|e] c1]; reflexivity.
Qed.

(** Every action either leaves the record of [agentId] as it was, or is one
    of four successful calls on [agentId] itself. *)
Lemma step_agent c (act : Action O E) agentId :
  let old := agentOf c agentId in
  let new := agentOf (step c act) agentId in
  new = old
  ∨ (∃ env label s, act = Tx env (CreateAgent agentId label s)
       ∧ exists_ old = false ∧ exists_ new = true ∧ strategy new = s)
  ∨ (∃ env ns, act = Tx env (UpdateStrategy agentId ns)
       ∧ committed (transact (updateStrategy env agentId ns) c) = true
       ∧ exists_ old = true ∧ owner old = msg_sender env
       ∧ new = set_strategy old ns)
  ∨ (∃ env ud, act = Tx env (CheckAndExecuteTrigger agentId ud)
       ∧ committed (transact (checkAndExecuteTrigger env agentId ud) c) = true
       ∧ exists_ old = true ∧ isActive (strategy old) = true
       ∧ lastExecuted (strategy old) + cooldownPeriod (strategy old) <= block_timestamp env
       ∧ new = set_lastExecuted old (block_timestamp env))
  ∨ (∃ env, act = Tx env (DeactivateAgent agentId)
       ∧ exists_ old = true ∧ owner old = msg_sender env
       ∧ new = set_isActive old false).
Proof.
  intros old new. subst old new.
  destruct act as [env call|o e]; [|left; reflexivity].
  destruct call as [id label s|id ns|id ud|id|id|user|id]; cbn [step dispatch].
  - (* createAgent *)
    rewrite post_void. unfold transact. rewrite createAgent_run. cbv zeta.
    destruct (exists_ (agentOf c id)) eqn:Hex; [left; reflexivity|].
    destruct (_isValidStrategy s); [|left; reflexivity]. cbn [negb].
    destruct (setSubnodeRecord _ _ _ _ _ _) as [[nd e']|]; [|left; reflexivity].
    destruct (_ <=? _); [|left; reflexivity].
    cbn [post]. unfold agentOf in *. cbn [registry set_agentCount set_agents agents] in *.
    destruct (decide (id = agentId)) as [->|Hne].
    + right; left. exists env, label, s.
      rewrite !lookup_total_insert_eq. repeat split; first [assumption | reflexivity].
    + left. rewrite lookup_total_insert_ne by exact Hne. reflexivity.
  - (* updateStrategy *)
    unfold transact. rewrite updateStrategy_run. cbv zeta.
    destruct (exists_ (agentOf c id)) eqn:Hex; [|left; reflexivity].
    destruct (N.eqb_spec (owner (agentOf c id)) (msg_sender env)) as [Hown|];
      [|left; reflexivity].
    destruct (_isValidStrategy ns) eqn:Hvalid; [|left; reflexivity].
    cbn [negb post]. unfold agentOf in *. cbn [registry set_agentCount set_agents agents] in *.
    destruct (decide (id = agentId)) as [->|Hne].
    + right; right; left. exists env, ns.
      unfold transact. rewrite updateStrategy_run. cbv zeta. unfold agentOf.
      rewrite Hex. apply N.eqb_eq in Hown as Hown'. rewrite Hown', Hvalid.
      cbn [negb committed].
      rewrite !lookup_total_insert_eq. repeat split; first [assumption | reflexivity].
    + left. rewrite lookup_total_insert_ne by exact Hne. reflexivity.
  - (* checkAndExecuteTrigger *)
    destruct (transact (checkAndExecuteTrigger env id ud) c) as [u c'|err c0] eqn:Htx.
    + pose proof (checkAndExecuteTrigger_committed_inv _ _ _ _ _ _ Htx) as Hinv.
      cbv zeta in Hinv.
      destruct Hinv as (o' & p & v & Hex & Hact & _ & _ & _ & Hcool & _ & _ & ->).
      cbn [post]. unfold agentOf in *. cbn [registry set_agentCount set_agents agents] in *.
      destruct (decide (id = agentId)) as [->|Hne].
      * right; right; right; left. exists env, ud.
        rewrite Htx, !lookup_total_insert_eq.
        repeat split; first [assumption | reflexivity].
      * left. rewrite lookup_total_insert_ne by exact Hne. reflexivity.
    + left. unfold transact in Htx.
      destruct (checkAndExecuteTrigger env id ud c) as [[r|e1] c1]; [discriminate|].
      injection Htx as _ <-. reflexivity.
  - (* deactivateAgent *)
    unfold transact. rewrite deactivateAgent_run. cbv zeta.
    destruct (exists_ (agentOf c id)) eqn:Hex; [|left; reflexivity].
    destruct (N.eqb_spec (owner (agentOf c id)) (msg_sender env)) as [Hown|];
      [|left; reflexivity].
    cbn [negb post]. unfold agentOf in *. cbn [registry set_agentCount set_agents agents] in *.
    destruct (decide (id = agentId)) as [->|Hne].
    + right; right; right; right. exists env.
      rewrite !lookup_total_insert_eq. repeat split; first [assumption | reflexivity].
    + left. rewrite lookup_total_insert_ne by exact Hne. reflexivity.
  - (* getAgent *)
    left. rewrite post_void. unfold transact. rewrite getAgent_run.
    destruct (exists_ _); reflexivity.
  - (* getUserAgents *)
    left. reflexivity.
  - (* checkTrigger *)
    left. rewrite post_void. unfold transact. rewrite checkTrigger_run. cbv zeta.
    destruct (exists_ _); [|reflexivity]. cbn [negb].
    destruct (getPrice _ _ _) as [p|]; [|reflexivity].
    destruct (normalize _ _); reflexivity.
Qed.

(** A switched-off agent stays switched off under every action that does not
    overwrite its flag with [true]. *)
Lemma inactive_preserved c (act : Action O E) agentId :
  exists_ (agentOf c agentId) = true →
  isActive (strategy (agentOf c agentId)) = false →
  reactivates agentId act = false →
  exists_ (agentOf (step c act) agentId) = true
  ∧ isActive (strategy (agentOf (step c act) agentId)) = false.
Proof.
  intros Hex Hoff Hact.
  destruct (step_agent c act agentId)
    as [->|[(env & label & s & -> & Hnew & _)
          |[(env & ns & -> & _ & _ & _ & ->)
           |[(env & ud & -> & _ & _ & Hon & _)
            |(env & -> & _ & _ & ->)]]]].
  - split; assumption.
  - congruence.
  - cbn [reactivates] in Hact. rewrite N.eqb_refl in Hact. cbn in Hact.
    cbn [set_strategy exists_ strategy]. split; assumption.
  - congruence.
  - cbn. split; [assumption | reflexivity].
Qed.

Lemma inactive_along_trace (trace : list (Action O E)) c agentId :
  exists_ (agentOf c agentId) = true →
  isActive (strategy (agentOf c agentId)) = false →
  forallb (λ act, negb (reactivates agentId act)) trace = true →
  exists_ (agentOf (run c trace) agentId) = true
  ∧ isActive (strategy (agentOf (run c trace) agentId)) = false.
Proof.
  revert c. induction trace as [|act trace IH]; intros c Hex Hoff Hall.
  - split; assumption.
  - cbn [forallb] in Hall. apply andb_prop in Hall as [Hact Hrest].
    apply negb_true_iff in Hact.
    destruct (inactive_preserved c act agentId Hex Hoff Hact) as [Hex' Hoff'].
    cbn [run fold_left]. apply (IH (step c act) Hex' Hoff' Hrest).
Qed.

Lemma inactive_execution_fails c env agentId updateData :
  exists_ (agentOf c agentId) = true →
  isActive (strategy (agentOf c agentId)) = false →
  transact (checkAndExecuteTrigger env agentId updateData) c
  = Reverted (ErrorString "Strategy not active") c.
Proof.
  intros Hex Hoff. unfold transact. rewrite checkAndExecuteTrigger_run. cbv zeta.
  rewrite Hex, Hoff. reflexivity.
Qed.

Lemma deactivateAgent_committed c env agentId :
  committed (transact (deactivateAgent env agentId) c) = true →
  let c' := post (transact (deactivateAgent env agentId) c) in
  exists_ (agentOf c' agentId) = true ∧ isActive (strategy (agentOf c' agentId)) = false.
Proof.
  unfold transact. rewrite deactivateAgent_run. cbv zeta.
  destruct (exists_ (agentOf c agentId)) eqn:Hex; [|discriminate].
  destruct (owner _ =? _); [|discriminate].
  cbn [negb committed post]. intros _.
  unfold agentOf. cbn [registry set_agents agents].
  rewrite lookup_total_insert_eq. cbn. split; [exact Hex | reflexivity].
Qed.

(** ** The claims *)

(** C1, as amended. For an existing agent and any single action on the chain
    (a call to the registry by anyone, committed or reverted, or a move of
    the collaborators), [lastExecuted] changes only if the action is a
    committed [checkAndExecuteTrigger] on that agent, which sets it to the
    block time and never moves it backward, or a committed [updateStrategy]
    on that agent by its owner, which overwrites it with the [lastExecuted]
    field of the supplied strategy. *)
Theorem lastExecuted_changes_only_by_execution_or_replacement
    c (act : Action O E) agentId :
  exists_ (agentOf c agentId) = true →
  lastExecuted (strategy (agentOf (step c act) agentId))
    ≠ lastExecuted (strategy (agentOf c agentId)) →
  (∃ env ud, act = Tx env (CheckAndExecuteTrigger agentId ud)
     ∧ committed (transact (checkAndExecuteTrigger env agentId ud) c) = true
     ∧ lastExecuted (strategy (agentOf (step c act) agentId)) = block_timestamp env
     ∧ lastExecuted (strategy (agentOf c agentId)) <= block_timestamp env)
  ∨ (∃ env ns, act = Tx env (UpdateStrategy agentId ns)
     ∧ committed (transact (updateStrategy env agentId ns) c) = true
     ∧ msg_sender env = owner (agentOf c agentId)
     ∧ lastExecuted (strategy (agentOf (step c act) agentId)) = lastExecuted ns).
Proof.
  intros Hex Hchg.
  destruct (step_agent c act agentId)
    as [Hsame|[(env & label & s & -> & Hnew & _)
          |[(env & ns & -> & Hok & _ & Hown & Hnew)
           |[(env & ud & -> & Hok & _ & _ & Hcool & Hnew)
            |(env & -> & _ & _ & Hnew)]]]].
  - rewrite Hsame in Hchg. contradiction.
  - congruence.
  - right. exists env, ns. rewrite Hnew. cbn. auto.
  - left. exists env, ud. rewrite Hnew. cbn. repeat split; [assumption | lia].
  - rewrite Hnew in Hchg. cbn in Hchg. contradiction.
Qed.

(** C2, as amended. For a valid strategy, a fresh agent id, a name registry
    that accepts the subname and a counter that does not overflow,
    [createAgent] commits and [getAgent] on the resulting state returns a
    record whose strategy is the supplied strategy verbatim, [isActive] and
    [lastExecuted] included, with the caller as owner. *)
Theorem createAgent_then_getAgent c env agentId ensLabel strat node e' :
  _isValidStrategy strat = true →
  exists_ (agentOf c agentId) = false →
  setSubnodeRecord (baseNode (registry c)) (keccak256 (encodePacked_string ensLabel))
    (msg_sender env) 0 0 (ensState c) = Some (node, e') →
  agentCount (registry c) + 1 <= MAX_UINT256 →
  ∃ nd c' a,
    transact (createAgent env agentId ensLabel strat) c = Committed nd c'
    ∧ transact (getAgent agentId) c' = Committed a c'
    ∧ strategy a = strat
    ∧ isActive (strategy a) = isActive strat
    ∧ lastExecuted (strategy a) = lastExecuted strat
    ∧ owner a = msg_sender env
    ∧ ensName a = ensLabel +:+ ".yourdomain.eth"
    ∧ createdAt a = block_timestamp env
    ∧ exists_ a = true.
Proof.
  intros Hvalid Hfresh Hens Hcount.
  unfold transact at 1. rewrite createAgent_run. cbv zeta.
  rewrite Hfresh, Hvalid, Hens. cbn [negb].
  apply N.leb_le in Hcount. rewrite Hcount.
  eexists _, _, _. split; [reflexivity|].
  unfold transact. rewrite getAgent_run.
  unfold agentOf. cbn [registry set_agentCount agents].
  rewrite lookup_total_insert_eq. cbn [exists_].
  split; [reflexivity|]. cbn. repeat split; reflexivity.
Qed.

(** C5, as amended. After a committed [deactivateAgent], every
    [checkAndExecuteTrigger] for that agent reverts with "Strategy not
    active", whatever the price, the caller and the time, in every state
    reached by a trace of actions none of which is an [updateStrategy] on
    that agent supplying [isActive = true]. *)
Theorem deactivated_until_strategy_replaced
    c env agentId (trace : list (Action O E)) env' updateData :
  committed (transact (deactivateAgent env agentId) c) = true →
  forallb (λ act, negb (reactivates agentId act)) trace = true →
  let c' := run (post (transact (deactivateAgent env agentId) c)) trace in
  transact (checkAndExecuteTrigger env' agentId updateData) c'
  = Reverted (ErrorString "Strategy not active") c'.
Proof.
  intros Hok Hall c'.
  destruct (deactivateAgent_committed c env agentId Hok) as [Hex Hoff].
  destruct (inactive_along_trace trace _ agentId Hex Hoff Hall) as [Hex' Hoff'].
  apply inactive_execution_fails; assumption.
Qed.

(** C8. For an existing agent and a caller who is not its owner,
    [updateStrategy] and [deactivateAgent] stop at the [Unauthorized] check
    with nothing written, and the transaction leaves the whole chain state
    as it was. *)
Theorem non_owner_rejected c env agentId newStrategy :
  exists_ (agentOf c agentId) = true →
  owner (agentOf c agentId) ≠ msg_sender env →
  updateStrategy env agentId newStrategy c = (Fail Unauthorized, c)
  ∧ deactivateAgent env agentId c = (Fail Unauthorized, c)
  ∧ transact (updateStrategy env agentId newStrategy) c = Reverted Unauthorized c
  ∧ transact (deactivateAgent env agentId) c = Reverted Unauthorized c.
Proof.
  intros Hex Hown. apply N.eqb_neq in Hown.
  unfold transact. rewrite updateStrategy_run, deactivateAgent_run. cbv zeta.
  rewrite Hex, Hown. cbn [negb]. repeat split; reflexivity.
Qed.

(** C9. [createAgent] with an id that is already present stops at the first
    check with nothing written: it reverts with "Agent already exists", and
    the existing record, the owner index and the agent count are as before. *)
Theorem createAgent_existing_rejected c env agentId ensLabel strat :
  exists_ (agentOf c agentId) = true →
  createAgent env agentId ensLabel strat c
    = (Fail (ErrorString "Agent already exists"), c)
  ∧ transact (createAgent env agentId ensLabel strat) c
    = Reverted (ErrorString "Agent already exists") c
  ∧ let c' := post (transact (createAgent env agentId ensLabel strat) c) in
    agentOf c' agentId = agentOf c agentId
    ∧ userAgents (registry c') = userAgents (registry c)
    ∧ agentCount (registry c') = agentCount (registry c)
    ∧ c' = c.
Proof.
  intros Hex. unfold transact. rewrite createAgent_run. cbv zeta.
  rewrite Hex. cbn [post]. repeat split; reflexivity.
Qed.

(** C10. A committed [checkAndExecuteTrigger] writes exactly one storage
    field: the targeted agent's [strategy.lastExecuted], set to the block
    time. The agent's other fields, the other agents, the owner index, the
    node index, the agent count and the base node are unchanged. *)
Theorem checkAndExecuteTrigger_frame c env agentId updateData u c' :
  transact (checkAndExecuteTrigger env agentId updateData) c = Committed u c' →
  let a := agentOf c agentId in
  let a' := agentOf c' agentId in
  registry c' =
    set_agents (λ m, <[agentId := set_lastExecuted a (block_timestamp env)]> m) (registry c)
  ∧ lastExecuted (strategy a') = block_timestamp env
  ∧ owner a' = owner a ∧ ensNode a' = ensNode a ∧ ensName a' = ensName a
  ∧ createdAt a' = createdAt a ∧ exists_ a' = exists_ a
  ∧ priceFeedId (strategy a') = priceFeedId (strategy a)
  ∧ triggerPrice (strategy a') = triggerPrice (strategy a)
  ∧ triggerAbove (strategy a') = triggerAbove (strategy a)
  ∧ tokenIn (strategy a') = tokenIn (strategy a)
  ∧ tokenOut (strategy a') = tokenOut (strategy a)
  ∧ amountIn (strategy a') = amountIn (strategy a)
  ∧ isActive (strategy a') = isActive (strategy a)
  ∧ cooldownPeriod (strategy a') = cooldownPeriod (strategy a)
  ∧ (∀ other, other ≠ agentId →
       agents (registry c') !! other = agents (registry c) !! other)
  ∧ userAgents (registry c') = userAgents (registry c)
  ∧ ensNodeToAgentId (registry c') = ensNodeToAgentId (registry c)
  ∧ agentCount (registry c') = agentCount (registry c)
  ∧ baseNode (registry c') = baseNode (registry c)
  ∧ ensState c' = ensState c.
Proof.
  intros Htx a a'.
  pose proof (checkAndExecuteTrigger_committed_inv _ _ _ _ _ _ Htx) as Hinv.
  cbv zeta in Hinv. destruct Hinv as (o' & p & v & _ & _ & _ & _ & _ & _ & _ & _ & ->).
  subst a a'. unfold agentOf. cbn [registry set_agents agents userAgents
    ensNodeToAgentId agentCount baseNode ensState].
  rewrite lookup_total_insert_eq. cbn.
  repeat split; try reflexivity.
  intros other Hne. apply lookup_insert_ne. congruence.
Qed.

(** C7. For an existing, active agent whose price read passes, at a block
    time inside the [uint256] range: the call commits exactly when
    [now >= lastExecuted + cooldownPeriod] (price condition met); it reverts
    with [CooldownNotExpired] whenever [now] is earlier. With a cooldown of
    3600 and [lastExecuted = T], the call at [T + 3599] reverts with
    [CooldownNotExpired], and the call at [T + 3600] with the condition met
    commits and sets [lastExecuted] to [T + 3600]. *)
Theorem cooldown_gate c env agentId updateData o' p :
  let a := agentOf c agentId in
  let s := strategy a in
  let now := block_timestamp env in
  let call := transact (checkAndExecuteTrigger env agentId updateData) c in
  exists_ a = true → isActive s = true →
  (if (0 <? length updateData)%nat
   then updatePriceFeeds updateData (msg_value env) now (pythState c)
   else Some (pythState c)) = Some o' →
  getPriceNoOlderThan (priceFeedId s) 300 now o' = Some p →
  publishTime p ≠ 0 →
  now < MAX_UINT256 →
  (lastExecuted s + cooldownPeriod s <= MAX_UINT256 →
   now < lastExecuted s + cooldownPeriod s →
   call = Reverted CooldownNotExpired c)
  ∧ (cooldownPeriod s = 3600 → now = lastExecuted s + 3599 →
     call = Reverted CooldownNotExpired c)
  ∧ (∀ v, normalize (price p) (expo p) = Done v → triggerMet s v = true →
       (committed call = true ↔ lastExecuted s + cooldownPeriod s <= now)
       ∧ (cooldownPeriod s = 3600 → now = lastExecuted s + 3600 →
          ∃ c', call = Committed () c'
                ∧ lastExecuted (strategy (agentOf c' agentId)) = lastExecuted s + 3600)).
Proof.
  intros a s now call Hex Hact Hupd Hget Hpub Hnow.
  assert (Hearly : lastExecuted s + cooldownPeriod s <= MAX_UINT256 →
                   now < lastExecuted s + cooldownPeriod s →
                   call = Reverted CooldownNotExpired c).
  { intros Hfit Hlt. subst call. unfold transact.
    rewrite checkAndExecuteTrigger_run. cbv zeta. fold a. fold s. fold now.
    rewrite Hex, Hact. cbn [negb]. rewrite Hupd, Hget.
    apply N.eqb_neq in Hpub. rewrite Hpub.
    rewrite (checked_add_fits _ _ Hfit).
    apply N.ltb_lt in Hlt. rewrite Hlt. reflexivity. }
  split; [exact Hearly|]. split.
  - intros Hcd Hat. apply Hearly; rewrite Hcd; lia.
  - intros v Hnorm Hmet.
    assert (Hlate : lastExecuted s + cooldownPeriod s <= now →
                    call = Committed ()
                      (mkChain
                         (set_agents (λ m, <[agentId := set_lastExecuted a now]> m)
                            (registry c))
                         o' (ensState c)
                         (events c ++ [TriggerExecuted agentId (priceFeedId s) v
                                         (triggerPrice s) now]))).
    { intros Hcool. subst call.
      apply (checkAndExecuteTrigger_commits env agentId updateData c o' p v);
        try assumption. fold a. fold s. lia. }
    split; [split|].
    + intros Hok. subst call.
      destruct (transact _ c) as [u c'|] eqn:Htx; [|discriminate].
      pose proof (checkAndExecuteTrigger_committed_inv _ _ _ _ _ _ Htx) as Hinv.
      cbv zeta in Hinv. destruct Hinv as (_ & _ & _ & _ & _ & _ & _ & _ & Hcool & _).
      exact Hcool.
    + intros Hcool. rewrite (Hlate Hcool). reflexivity.
    + intros Hcd Hat. eexists. split.
      * apply Hlate. rewrite Hcd. lia.
      * unfold agentOf. cbn [registry set_agents agents].
        rewrite lookup_total_insert_eq. cbn. exact Hat.
Qed.

(** [checkTrigger] never writes, whether it returns or reverts. *)
Lemma checkTrigger_no_write c env agentId :
  snd (checkTrigger env agentId c) = c.
Proof.
  rewrite checkTrigger_run. cbv zeta.
  destruct (exists_ _); [|reflexivity]. cbn [negb].
  destruct (getPrice _ _ _) as [p|]; [|reflexivity].
  destruct (normalize _ _); reflexivity.
Qed.

(** Overwriting [isActive], [lastExecuted] and [cooldownPeriod] of the agent
    does not change what [checkTrigger] answers. *)
Lemma checkTrigger_ignores_gates c env agentId active last cooldown :
  let a := agentOf c agentId in
  let a' := set_cooldownPeriod (set_lastExecuted (set_isActive a active) last) cooldown in
  let c' := mkChain (set_agents (λ m, <[agentId := a']> m) (registry c))
              (pythState c) (ensState c) (events c) in
  fst (checkTrigger env agentId c') = fst (checkTrigger env agentId c).
Proof.
  intros a a' c'. rewrite !checkTrigger_run. cbv zeta.
  assert (Ha' : agentOf c' agentId = a').
  { unfold agentOf, c'. cbn [registry set_agents agents].
    apply lookup_total_insert_eq. }
  rewrite Ha'. fold a.
  change (exists_ a') with (exists_ a).
  change (priceFeedId (strategy a')) with (priceFeedId (strategy a)).
  change (pythState c') with (pythState c).
  destruct (exists_ a); [|reflexivity]. cbn [negb].
  destruct (getPrice _ _ _) as [p|]; [|reflexivity].
  destruct (normalize _ _); reflexivity.
Qed.

End Properties.

(** C3. The code's conversion at the two inputs of the claim: mantissa
    12345678 with exponent -8 is multiplied by [10^8], and mantissa 5 with
    exponent 2 is divided by [10^2]. *)
Theorem normalize_examples :
  normalize 12345678 (-8) = Done 1234567800000000
  ∧ normalize 5 2 = Done 0.
Proof. split; vm_compute; reflexivity. Qed.

(** C4, as amended. For an [int64] mantissa and an [int32] exponent, let [u]
    be the mantissa read as an unsigned 64-bit word (the mantissa itself
    when it is not negative, the mantissa plus [2^64] when it is). With a
    negative exponent the conversion returns [u * 10^(-exponent)] when
    [-exponent <= 77] and the product fits in [uint256], and panics
    otherwise; with a non-negative exponent it returns [u / 10^exponent],
    rounded down, when [exponent <= 77], and panics otherwise. *)
Theorem normalize_spec (mantissa exponent : Z) :
  (- 2 ^ 63 <= mantissa < 2 ^ 63)%Z →
  (- 2 ^ 31 <= exponent < 2 ^ 31)%Z →
  let u := uint64_of_int64 mantissa in
  let k := Z.to_N (Z.abs exponent) in
  ((0 <= mantissa)%Z → u = Z.to_N mantissa)
  ∧ ((mantissa < 0)%Z → u = Z.to_N (mantissa + 2 ^ 64))
  ∧ ((exponent < 0)%Z →
       normalize mantissa exponent =
         if (k <=? 77) && (u * 10 ^ k <=? MAX_UINT256)
         then Done (u * 10 ^ k) else Fail (Panic 17))
  ∧ ((0 <= exponent)%Z →
       normalize mantissa exponent =
         if k <=? 77 then Done (u / 10 ^ k) else Fail (Panic 17)).
Proof.
  intros Hm He u k. subst u k. repeat split.
  - intros Hpos. apply uint64_of_nonneg. lia.
  - intros Hneg. apply uint64_of_neg. lia.
  - intros Hneg. unfold normalize.
    destruct (Z.ltb_spec exponent 0) as [_|]; [|lia].
    rewrite uint256_of_small by lia.
    replace (Z.abs exponent) with (- exponent)%Z by lia.
    unfold checked_pow, checked_mul, mbind, Outcome_bind.
    rewrite pow10_fits.
    destruct (Z.to_N (- exponent) <=? 77); reflexivity.
  - intros Hpos. unfold normalize.
    destruct (Z.ltb_spec exponent 0) as [|_]; [lia|].
    rewrite uint256_of_small by lia.
    replace (Z.abs exponent) with exponent by lia.
    unfold checked_pow, checked_div, mbind, Outcome_bind.
    rewrite pow10_fits.
    destruct (Z.to_N exponent <=? 77); [|reflexivity].
    destruct (N.eqb_spec (10 ^ Z.to_N exponent) 0) as [Hz|]; [|reflexivity].
    apply N.pow_nonzero in Hz; [contradiction | discriminate].
Qed.

(** C6. [checkTrigger] reads the price, converts it and tests the condition,
    and nothing else. It writes nothing (returning or reverting). Its answer
    is the same whatever [isActive], [lastExecuted] and [cooldownPeriod]
    hold. For an existing agent the answer is fixed by the oracle's
    [getPrice] of the agent's feed alone: a read that reverts makes the call
    revert, a conversion that panics makes it revert with that panic, and
    otherwise the call returns the converted price together with
    [price >= triggerPrice] when [triggerAbove] and [price <= triggerPrice]
    when not; for an [int32] exponent the converted price is the mantissa,
    read as an unsigned 64-bit word, times [10^(-expo)] for a negative
    exponent down to -77 whose product fits in [uint256], and divided by
    [10^expo] for an exponent from 0 to 77. It does answer [met = true] for a
    deactivated agent. *)
Theorem checkTrigger_is_a_pure_price_test :
  (∀ (O E : Type) (HP : IPyth O) (c : Chain O E) env agentId,
     snd (checkTrigger env agentId c) = c
     ∧ post (transact (checkTrigger env agentId) c) = c)
  ∧ (∀ (O E : Type) (HP : IPyth O) (c : Chain O E) env agentId active last cooldown,
       let a := agentOf c agentId in
       let a' := set_cooldownPeriod (set_lastExecuted (set_isActive a active) last)
                   cooldown in
       let c' := mkChain (set_agents (λ m, <[agentId := a']> m) (registry c))
                   (pythState c) (ensState c) (events c) in
       fst (checkTrigger env agentId c') = fst (checkTrigger env agentId c))
  ∧ (exists_ (agentOf Demo.deactivated Demo.agent1) = true
     ∧ isActive (strategy (agentOf Demo.deactivated Demo.agent1)) = false
     ∧ fst (checkTrigger (Demo.at_time Demo.bob 100290) Demo.agent1 Demo.deactivated)
       = Done (true, 30000000000000000000))
  ∧ (∀ (O E : Type) (HP : IPyth O) (c : Chain O E) env agentId,
       exists_ (agentOf c agentId) = true →
       let s := strategy (agentOf c agentId) in
       let answer := fst (checkTrigger env agentId c) in
       match getPrice (priceFeedId s) (block_timestamp env) (pythState c) with
       | None => answer = Fail CalleeReverted
       | Some p =>
           let u := Z.to_N (price p mod 2 ^ 64) in
           let k := Z.to_N (Z.abs (expo p)) in
           let met (v : N) :=
             if triggerAbove s then triggerPrice s <=? v else v <=? triggerPrice s in
           match normalize (price p) (expo p) with
           | Fail err => answer = Fail err
           | Done v => answer = Done (met v, v)
           end
           ∧ ((- 2 ^ 31 <= expo p < 0)%Z → k <= 77 → u * 10 ^ k <= MAX_UINT256 →
              answer = Done (met (u * 10 ^ k), u * 10 ^ k))
           ∧ ((0 <= expo p < 2 ^ 31)%Z → k <= 77 →
              answer = Done (met (u / 10 ^ k), u / 10 ^ k))
       end).
Proof.
  split; [|split; [|split]].
  - intros O E HP c env agentId.
    pose proof (checkTrigger_no_write c env agentId) as Hsnd.
    split; [exact Hsnd|].
    unfold transact. destruct (checkTrigger env agentId c) as [[r|e] c1]; cbn in *.
    + exact Hsnd.
    + reflexivity.
  - intros O E HP c env agentId active last cooldown.
    apply checkTrigger_ignores_gates.
  - vm_compute. repeat split; reflexivity.
  - intros O E HP c env agentId Hex s answer. subst s answer.
    rewrite checkTrigger_run. cbv zeta. rewrite Hex. cbn [negb].
    destruct (getPrice _ _ _) as [p|]; [|reflexivity].
    unfold triggerMet. split; [|split].
    + destruct (normalize (price p) (expo p)); reflexivity.
    + intros He Hk Hfit. rewrite normalize_negative_exponent by exact He.
      replace (Z.abs (expo p)) with (- expo p)%Z in * by lia.
      apply N.leb_le in Hk, Hfit. unfold uint64_of_int64. rewrite Hk, Hfit.
      reflexivity.
    + intros He Hk. rewrite normalize_nonnegative_exponent by exact He.
      replace (Z.abs (expo p)) with (expo p) in * by lia.
      apply N.leb_le in Hk. unfold uint64_of_int64. rewrite Hk. reflexivity.
Qed.

(** ** The claims on the concrete chain *)

Import Demo.

(** C1 on the concrete chain: the trigger firing at time 100100 is the
    action that moves [lastExecuted] of [agent1]. *)
Lemma lastExecuted_changes_witness :
  exists_ (agentOf created agent1) = true
  ∧ lastExecuted (strategy (agentOf (step created fire) agent1)) = 100100
  ∧ ((∃ env ud,
        fire = Tx env (CheckAndExecuteTrigger agent1 ud)
        ∧ committed (transact (checkAndExecuteTrigger env agent1 ud) created) = true
        ∧ lastExecuted (strategy (agentOf (step created fire) agent1)) = block_timestamp env
        ∧ lastExecuted (strategy (agentOf created agent1)) <= block_timestamp env)
     ∨ (∃ env ns,
          fire = Tx env (UpdateStrategy agent1 ns)
          ∧ committed (transact (updateStrategy env agent1 ns) created) = true
          ∧ msg_sender env = owner (agentOf created agent1)
          ∧ lastExecuted (strategy (agentOf (step created fire) agent1)) = lastExecuted ns)).
Proof.
  split; [vm_compute; reflexivity|].
  split; [vm_compute; reflexivity|].
  apply (lastExecuted_changes_only_by_execution_or_replacement created fire agent1).
  - vm_compute; reflexivity.
  - vm_compute. discriminate.
Defined.

(** C1 as stated fails: the owner's [updateStrategy] resets [lastExecuted]
    of [agent1] from 100100 to 0, without any trigger execution. *)
Lemma updateStrategy_resets_lastExecuted :
  lastExecuted (strategy (agentOf deactivated agent1)) = 100100
  ∧ committed (transact (updateStrategy (at_time alice 100250) agent1 buyDip) deactivated)
    = true
  ∧ lastExecuted
      (strategy
         (agentOf
            (post (transact (updateStrategy (at_time alice 100250) agent1 buyDip) deactivated))
            agent1)) = 0.
Proof. vm_compute. repeat split; reflexivity. Qed.

(** C2 on the concrete chain. *)
Lemma createAgent_then_getAgent_witness :
  _isValidStrategy buyDip = true
  ∧ exists_ (agentOf genesis agent1) = false
  ∧ ∃ nd c' a,
      transact (createAgent (at_time alice 100000) agent1 "my-agent" buyDip) genesis
        = Committed nd c'
      ∧ transact (getAgent agent1) c' = Committed a c'
      ∧ strategy a = buyDip
      ∧ isActive (strategy a) = isActive buyDip
      ∧ lastExecuted (strategy a) = lastExecuted buyDip
      ∧ owner a = msg_sender (at_time alice 100000)
      ∧ ensName a = "my-agent" +:+ ".yourdomain.eth"
      ∧ createdAt a = block_timestamp (at_time alice 100000)
      ∧ exists_ a = true.
Proof.
  split; [vm_compute; reflexivity|].
  split; [vm_compute; reflexivity|].
  eapply (createAgent_then_getAgent genesis (at_time alice 100000) agent1 "my-agent" buyDip).
  - vm_compute; reflexivity.
  - vm_compute; reflexivity.
  - cbn. reflexivity.
  - vm_compute. discriminate.
Defined.

(** C2 as stated fails: a valid strategy supplied with [isActive = false]
    and [lastExecuted = 5] is stored, and read back, with those values. *)
Lemma createAgent_stores_supplied_flags :
  _isValidStrategy dormant = true
  ∧ committed (transact (createAgent (at_time alice 100000) agent1 "my-agent" dormant) genesis)
    = true
  ∧ ∃ a,
      fst (getAgent agent1
             (post (transact (createAgent (at_time alice 100000) agent1 "my-agent" dormant)
                      genesis))) = Done a
      ∧ isActive (strategy a) = false
      ∧ lastExecuted (strategy a) = 5.
Proof.
  split; [vm_compute; reflexivity|].
  split; [vm_compute; reflexivity|].
  eexists. split; [vm_compute; reflexivity|].
  split; reflexivity.
Qed.

(** C4 on a negative mantissa and a negative exponent. *)
Lemma normalize_spec_witness :
  (- 2 ^ 63 <= -5 < 2 ^ 63)%Z
  ∧ (- 2 ^ 31 <= -2 < 2 ^ 31)%Z
  ∧ uint64_of_int64 (-5) = Z.to_N (-5 + 2 ^ 64)
  ∧ normalize (-5) (-2) = Done 1844674407370955161100.
Proof.
  assert (Hm : (- 2 ^ 63 <= -5 < 2 ^ 63)%Z) by lia.
  assert (He : (- 2 ^ 31 <= -2 < 2 ^ 31)%Z) by lia.
  split; [exact Hm|]. split; [exact He|].
  destruct (normalize_spec (-5) (-2) Hm He) as (_ & Hneg & Hmul & _).
  split.
  - apply Hneg. lia.
  - rewrite Hmul by lia. vm_compute. reflexivity.
Defined.

(** C4 as stated fails twice: a negative mantissa is not replaced by its
    absolute value, and a power of ten beyond [uint256] panics where the
    quotient would be 0. *)
Lemma normalize_not_absolute_value :
  normalize (-1) 0 = Done 18446744073709551615
  ∧ normalize (-1) 0 ≠ Done (Z.to_N (Z.abs (-1)) / 10 ^ 0)
  ∧ normalize 1 78 = Fail (Panic 17)
  ∧ normalize 1 78 ≠ Done (Z.to_N (Z.abs 1) / 10 ^ 78).
Proof.
  split; [vm_compute; reflexivity|].
  split; [vm_compute; discriminate|].
  split; [vm_compute; reflexivity|].
  vm_compute; discriminate.
Qed.

(** C5 on the concrete chain: while Alice only supplies dormant strategies,
    [agent1] cannot execute. *)
Lemma deactivated_until_strategy_replaced_witness :
  committed (transact (deactivateAgent (at_time alice 100200) agent1) executed) = true
  ∧ forallb (λ act, negb (reactivates agent1 act)) quiet_trace = true
  ∧ transact (checkAndExecuteTrigger (at_time bob 100290) agent1 [])
      (run (post (transact (deactivateAgent (at_time alice 100200) agent1) executed))
         quiet_trace)
    = Reverted (ErrorString "Strategy not active")
        (run (post (transact (deactivateAgent (at_time alice 100200) agent1) executed))
           quiet_trace).
Proof.
  split; [vm_compute; reflexivity|].
  split; [vm_compute; reflexivity|].
  apply (deactivated_until_strategy_replaced executed (at_time alice 100200) agent1
           quiet_trace (at_time bob 100290) []).
  - vm_compute; reflexivity.
  - vm_compute; reflexivity.
Defined.

(** C5 as stated fails: after [deactivateAgent], the owner's
    [updateStrategy] with [isActive = true] switches the agent on again and
    the next [checkAndExecuteTrigger] commits. *)
Lemma updateStrategy_reactivates :
  committed (transact (deactivateAgent (at_time alice 100200) agent1) executed) = true
  ∧ isActive (strategy (agentOf deactivated agent1)) = false
  ∧ committed (transact (updateStrategy (at_time alice 100250) agent1 buyDip) deactivated)
    = true
  ∧ committed (transact (checkAndExecuteTrigger (at_time bob 100290) agent1 []) replaced)
    = true.
Proof. vm_compute. repeat split; reflexivity. Qed.

(** C7 on the concrete chain: [agent1] last executed at 100100 with a
    cooldown of 3600; at 103700, with a fresh price, the call commits and
    stamps 103700. *)
Lemma cooldown_gate_witness :
  exists_ (agentOf refreshed agent1) = true
  ∧ isActive (strategy (agentOf refreshed agent1)) = true
  ∧ lastExecuted (strategy (agentOf refreshed agent1)) = 100100
  ∧ cooldownPeriod (strategy (agentOf refreshed agent1)) = 3600
  ∧ ∃ c', transact (checkAndExecuteTrigger (at_time bob 103700) agent1 []) refreshed
          = Committed () c'
        ∧ lastExecuted (strategy (agentOf c' agent1)) = 100100 + 3600.
Proof.
  split; [vm_compute; reflexivity|].
  split; [vm_compute; reflexivity|].
  split; [vm_compute; reflexivity|].
  split; [vm_compute; reflexivity|].
  destruct (cooldown_gate refreshed (at_time bob 103700) agent1 []
              (pythState refreshed) (mkPrice 300000000000 0 (-8) 103700))
    as (_ & _ & Hlate).
  - vm_compute; reflexivity.
  - vm_compute; reflexivity.
  - vm_compute; reflexivity.
  - vm_compute; reflexivity.
  - vm_compute. discriminate.
  - vm_compute; reflexivity.
  - destruct (Hlate 30000000000000000000) as [_ Hat].
    + vm_compute; reflexivity.
    + vm_compute; reflexivity.
    + apply Hat; vm_compute; reflexivity.
Defined.

(** C8 on the concrete chain: Bob is not the owner of [agent1]. *)
Lemma non_owner_rejected_witness :
  exists_ (agentOf created agent1) = true
  ∧ owner (agentOf created agent1) ≠ msg_sender (at_time bob 100050)
  ∧ updateStrategy (at_time bob 100050) agent1 dormant created = (Fail Unauthorized, created)
  ∧ deactivateAgent (at_time bob 100050) agent1 created = (Fail Unauthorized, created)
  ∧ transact (updateStrategy (at_time bob 100050) agent1 dormant) created
    = Reverted Unauthorized created
  ∧ transact (deactivateAgent (at_time bob 100050) agent1) created
    = Reverted Unauthorized created.
Proof.
  assert (Hex : exists_ (agentOf created agent1) = true) by (vm_compute; reflexivity).
  assert (Hown : owner (agentOf created agent1) ≠ msg_sender (at_time bob 100050))
    by (vm_compute; discriminate).
  split; [exact Hex|]. split; [exact Hown|].
  exact (non_owner_rejected created (at_time bob 100050) agent1 dormant Hex Hown).
Defined.

(** C9 on the concrete chain: Bob tries to register [agent1] again. *)
Lemma createAgent_existing_rejected_witness :
  exists_ (agentOf created agent1) = true
  ∧ transact (createAgent (at_time bob 100050) agent1 "again" buyDip) created
    = Reverted (ErrorString "Agent already exists") created.
Proof.
  assert (Hex : exists_ (agentOf created agent1) = true) by (vm_compute; reflexivity).
  split; [exact Hex|].
  exact (proj1 (proj2 (createAgent_existing_rejected created (at_time bob 100050) agent1
                         "again" buyDip Hex))).
Defined.

(** C10 on the concrete chain: the execution at 100100. *)
Lemma checkAndExecuteTrigger_frame_witness :
  transact (checkAndExecuteTrigger (at_time bob 100100) agent1 []) created
    = Committed () executed
  ∧ registry executed =
      set_agents (λ m, <[agent1 := set_lastExecuted (agentOf created agent1) 100100]> m)
        (registry created)
  ∧ lastExecuted (strategy (agentOf executed agent1)) = 100100.
Proof.
  assert (Htx : transact (checkAndExecuteTrigger (at_time bob 100100) agent1 []) created
                = Committed () executed) by (vm_compute; reflexivity).
  split; [exact Htx|].
  destruct (checkAndExecuteTrigger_frame created (at_time bob 100100) agent1 [] () executed Htx)
    as (Hreg & Hlast & _).
  split; [exact Hreg | exact Hlast].
Defined.

(** C6 on the concrete chain: the answer for the deactivated [agent1] is
    the conversion and comparison of the oracle's price. *)
Lemma checkTrigger_is_a_pure_price_test_witness :
  exists_ (agentOf deactivated agent1) = true
  ∧ fst (checkTrigger (at_time bob 100290) agent1 deactivated)
    = Done (triggerPrice buyDip <=? 300000000000 * 10 ^ 8, 300000000000 * 10 ^ 8).
Proof.
  assert (Hex : exists_ (agentOf deactivated agent1) = true) by (vm_compute; reflexivity).
  split; [exact Hex|].
  destruct checkTrigger_is_a_pure_price_test as (_ & _ & _ & Hanswer).
  pose proof (Hanswer Oracle Names demo_pyth deactivated (at_time bob 100290) agent1 Hex)
    as Hat.
  cbv zeta in Hat.
  change (getPrice (priceFeedId (strategy (agentOf deactivated agent1)))
            (block_timestamp (at_time bob 100290)) (pythState deactivated))
    with (Some ethUsd) in Hat.
  cbv iota beta in Hat. destruct Hat as (_ & Hneg & _).
  apply Hneg.
  - cbn. lia.
  - vm_compute. discriminate.
  - vm_compute. discriminate.
Defined.

(** * Further properties of the contracts *)

Lemma lookup_of_existing (m : gmap N Agent) (id : N) :
  exists_ (m !!! id) = true → m !! id = Some (m !!! id).
Proof.
  rewrite lookup_total_alt. destruct (m !! id) as [a|]; [reflexivity|].
  cbn. discriminate.
Qed.

Lemma existing_of_lookup (m : gmap N Agent) (id : N) (a : Agent) :
  m !! id = Some a → m !!! id = a.
Proof. intros Hm. rewrite lookup_total_alt, Hm. reflexivity. Qed.

Lemma constructor_consistent (b : N) : consistent (constructor b).
Proof.
  unfold consistent, constructor. cbn [agents userAgents ensNodeToAgentId agentCount].
  split; [|split; [|split; [|split]]].
  - intros id a Hm. rewrite lookup_empty in Hm. discriminate.
  - rewrite map_size_empty. reflexivity.
  - intros u. rewrite lookup_total_empty. constructor.
  - intros u id. rewrite lookup_total_empty. split.
    + intros Hin. inversion Hin.
    + intros (a & Hm & _). rewrite lookup_empty in Hm. discriminate.
  - intros node id Hm. rewrite lookup_empty in Hm. discriminate.
Qed.

Section Extras.
Context {O E : Type} `{!IPyth O, !IENS E, !Keccak}.

Implicit Types (c : Chain O E) (env : Env) (a : Agent).

Ltac run_body :=
  cbv [mbind M_bind mret M_ret sload sstore emit revert lift void
       pyth_call pyth_view ens_call]; cbn [registry pythState ensState events].

(** ** One step of the chain, seen from the whole storage *)

Lemma step_registry c (act : Action O E) :
  let r := registry c in
  let r' := registry (step c act) in
  r' = r
  ∨ (∃ env id label s,
       act = Tx env (CreateAgent id label s)
       ∧ exists_ (agentOf c id) = false
       ∧ _isValidStrategy s = true
       ∧ agentCount r + 1 <= MAX_UINT256
       ∧ let node := keccak256 (encodePacked_bytes32 (baseNode r) ++
                                encodePacked_bytes32 (keccak256 (encodePacked_string label))) in
         r' = mkRegistry (baseNode r)
                (<[id := mkAgent (msg_sender env) node (label +:+ ".yourdomain.eth") s
                           (block_timestamp env) true]> (agents r))
                (<[msg_sender env := (userAgents r !!! msg_sender env) ++ [id]]>
                   (userAgents r))
                (<[node := id]> (ensNodeToAgentId r))
                (agentCount r + 1))
  ∨ (∃ id a',
       exists_ (agentOf c id) = true
       ∧ identity a' = identity (agentOf c id)
       ∧ (_isValidStrategy (strategy (agentOf c id)) = true →
          _isValidStrategy (strategy a') = true)
       ∧ r' = set_agents (λ m, <[id := a']> m) r).
Proof.
  intros r r'. subst r r'.
  destruct act as [env call|o e]; [|left; reflexivity].
  destruct call as [id label s|id ns|id ud|id|id|user|id]; cbn [step dispatch].
  - rewrite post_void. unfold transact. rewrite createAgent_run. cbv zeta.
    destruct (exists_ (agentOf c id)) eqn:Hex; [left; reflexivity|].
    destruct (_isValidStrategy s) eqn:Hvalid; [|left; reflexivity]. cbn [negb].
    destruct (setSubnodeRecord _ _ _ _ _ _) as [[nd e']|]; [|left; reflexivity].
    destruct (N.leb_spec (agentCount (registry c) + 1) MAX_UINT256) as [Hfit|];
      [|left; reflexivity].
    right; left. exists env, id, label, s. cbn [post registry set_agentCount].
    repeat split; first [assumption | reflexivity].
  - unfold transact. rewrite updateStrategy_run. cbv zeta.
    destruct (exists_ (agentOf c id)) eqn:Hex; [|left; reflexivity].
    destruct (owner _ =? _); [|left; reflexivity].
    destruct (_isValidStrategy ns) eqn:Hvalid; [|left; reflexivity].
    cbn [negb post registry]. right; right.
    exists id, (set_strategy (agentOf c id) ns).
    repeat split; first [assumption | reflexivity | idtac].
    intros _. exact Hvalid.
  - destruct (transact (checkAndExecuteTrigger env id ud) c) as [u c'|err c0] eqn:Htx.
    + pose proof (checkAndExecuteTrigger_committed_inv _ _ _ _ _ _ Htx) as Hinv.
      cbv zeta in Hinv.
      destruct Hinv as (o' & p & v & Hex & _ & _ & _ & _ & _ & _ & _ & ->).
      cbn [post registry]. right; right.
      exists id, (set_lastExecuted (agentOf c id) (block_timestamp env)).
      repeat split; first [assumption | reflexivity | idtac].
      intros Hvalid. exact Hvalid.
    + left. unfold transact in Htx.
      destruct (checkAndExecuteTrigger env id ud c) as [[r|e1] c1]; [discriminate|].
      injection Htx as _ <-. reflexivity.
  - unfold transact. rewrite deactivateAgent_run. cbv zeta.
    destruct (exists_ (agentOf c id)) eqn:Hex; [|left; reflexivity].
    destruct (owner _ =? _); [|left; reflexivity].
    cbn [negb post registry]. right; right.
    exists id, (set_isActive (agentOf c id) false).
    repeat split; first [assumption | reflexivity | idtac].
    intros Hvalid. exact Hvalid.
  - left. rewrite post_void. unfold transact. rewrite getAgent_run.
    destruct (exists_ _); reflexivity.
  - left. reflexivity.
  - left. rewrite post_void. unfold transact. rewrite checkTrigger_run. cbv zeta.
    destruct (exists_ _); [|reflexivity]. cbn [negb].
    destruct (getPrice _ _ _) as [p|]; [|reflexivity].
    destruct (normalize _ _); reflexivity.
Qed.

Lemma identity_fields a a' :
  identity a' = identity a →
  owner a' = owner a ∧ ensNode a' = ensNode a ∧ ensName a' = ensName a
  ∧ createdAt a' = createdAt a ∧ exists_ a' = exists_ a.
Proof.
  unfold identity. intros Hid. injection Hid as Ho Hn Hname Hcr Hex. auto.
Qed.

Lemma fresh_id_absent (r : Registry) (id : N) :
  consistent r → exists_ (agents r !!! id) = false → agents r !! id = None.
Proof.
  intros (Hmap & _) Hfresh.
  destruct (agents r !! id) as [a|] eqn:Hm; [|reflexivity].
  destruct (Hmap id a Hm) as [Hex _].
  rewrite (existing_of_lookup _ _ _ Hm) in Hfresh. congruence.
Qed.

(** Rewriting the record of an existing agent without touching its identity
    or the validity of its strategy keeps the storage consistent. *)
Lemma consistent_rewrite (r : Registry) (id : N) (a' : Agent) :
  consistent r →
  exists_ (agents r !!! id) = true →
  identity a' = identity (agents r !!! id) →
  (_isValidStrategy (strategy (agents r !!! id)) = true →
   _isValidStrategy (strategy a') = true) →
  consistent (set_agents (λ m, <[id := a']> m) r).
Proof.
  intros (Hmap & Hcount & Hnodup & Hidx & Hnode) Hex Hid Hval.
  pose proof (lookup_of_existing _ _ Hex) as Hold.
  destruct (identity_fields _ _ Hid) as (Ho & Hn & _ & _ & He).
  destruct (Hmap _ _ Hold) as [_ Hvalid].
  unfold consistent. cbn [set_agents agents userAgents ensNodeToAgentId agentCount].
  split; [|split; [|split; [|split]]].
  - intros k a Hk. destruct (decide (id = k)) as [<-|Hne].
    + rewrite lookup_insert_eq in Hk. injection Hk as <-.
      split; [congruence | auto].
    + rewrite lookup_insert_ne in Hk by exact Hne. eauto.
  - rewrite map_size_insert_Some by (rewrite Hold; eauto). exact Hcount.
  - exact Hnodup.
  - intros u k. rewrite Hidx. split; intros (a & Hk & Hown).
    + destruct (decide (id = k)) as [<-|Hne].
      * exists a'. rewrite lookup_insert_eq. split; [reflexivity | congruence].
      * exists a. rewrite lookup_insert_ne by exact Hne. auto.
    + destruct (decide (id = k)) as [<-|Hne].
      * rewrite lookup_insert_eq in Hk. injection Hk as <-.
        exists (agents r !!! id). split; [exact Hold | congruence].
      * rewrite lookup_insert_ne in Hk by exact Hne. eauto.
  - intros node k Hnd. destruct (Hnode node k Hnd) as (a & Hk & Ha).
    destruct (decide (id = k)) as [<-|Hne].
    + exists a'. rewrite lookup_insert_eq. split; [reflexivity | congruence].
    + exists a. rewrite lookup_insert_ne by exact Hne. auto.
Qed.

(** Registering a fresh id with a valid strategy keeps the storage
    consistent. *)
Lemma consistent_register (r : Registry) (id who node : N) (a' : Agent) :
  consistent r →
  exists_ (agents r !!! id) = false →
  exists_ a' = true → _isValidStrategy (strategy a') = true →
  owner a' = who → ensNode a' = node →
  consistent
    (mkRegistry (baseNode r) (<[id := a']> (agents r))
       (<[who := (userAgents r !!! who) ++ [id]]> (userAgents r))
       (<[node := id]> (ensNodeToAgentId r)) (agentCount r + 1)).
Proof.
  intros Hcons Hfresh Hex Hvalid Hown Hnd.
  pose proof (fresh_id_absent r id Hcons Hfresh) as Hnone.
  destruct Hcons as (Hmap & Hcount & Hnodup & Hidx & Hnode).
  assert (Hother : ∀ k a, agents r !! k = Some a → id ≠ k).
  { intros k a Hk ->. congruence. }
  unfold consistent. cbn [agents userAgents ensNodeToAgentId agentCount].
  split; [|split; [|split; [|split]]].
  - intros k a Hk. destruct (decide (id = k)) as [<-|Hne].
    + rewrite lookup_insert_eq in Hk. injection Hk as <-. auto.
    + rewrite lookup_insert_ne in Hk by exact Hne. eauto.
  - rewrite map_size_insert_None by exact Hnone. rewrite Hcount. lia.
  - intros u. destruct (decide (who = u)) as [<-|Hne].
    + rewrite lookup_total_insert_eq. apply NoDup_app.
      split; [apply Hnodup|]. split; [|apply NoDup_singleton].
      intros x Hx Hin. apply list_elem_of_singleton in Hin as ->.
      apply Hidx in Hx as (a & Hk & _). congruence.
    + rewrite lookup_total_insert_ne by exact Hne. apply Hnodup.
  - intros u k. destruct (decide (who = u)) as [<-|Hne].
    + rewrite lookup_total_insert_eq, elem_of_app, Hidx, list_elem_of_singleton.
      split.
      * intros [(a & Hk & Ha)| ->].
        -- exists a. rewrite lookup_insert_ne by eauto. auto.
        -- exists a'. rewrite lookup_insert_eq. auto.
      * intros (a & Hk & Ha). destruct (decide (id = k)) as [<-|Hne].
        -- right. reflexivity.
        -- left. rewrite lookup_insert_ne in Hk by exact Hne. eauto.
    + rewrite lookup_total_insert_ne by exact Hne. rewrite Hidx.
      split; intros (a & Hk & Ha).
      * exists a. rewrite lookup_insert_ne by eauto. auto.
      * destruct (decide (id = k)) as [<-|Hne'].
        -- rewrite lookup_insert_eq in Hk. injection Hk as <-. congruence.
        -- rewrite lookup_insert_ne in Hk by exact Hne'. eauto.
  - intros node' k Hk. destruct (decide (node = node')) as [<-|Hne].
    + rewrite lookup_insert_eq in Hk. injection Hk as <-.
      exists a'. rewrite lookup_insert_eq. auto.
    + rewrite lookup_insert_ne in Hk by exact Hne.
      destruct (Hnode node' k Hk) as (a & Ha & Hn).
      exists a. rewrite lookup_insert_ne by eauto. auto.
Qed.

Lemma consistent_step c (act : Action O E) :
  consistent (registry c) → consistent (registry (step c act)).
Proof.
  intros Hcons.
  destruct (step_registry c act)
    as [Hsame|[(env & id & label & s & _ & Hfresh & Hvalid & _ & Hreg)
              |(id & a' & Hex & Hid & Hval & Hreg)]].
  - rewrite Hsame. exact Hcons.
  - cbv zeta in Hreg. rewrite Hreg.
    apply consistent_register; first [assumption | reflexivity].
  - rewrite Hreg. apply consistent_rewrite; assumption.
Qed.

Lemma consistent_run (trace : list (Action O E)) c :
  consistent (registry c) → consistent (registry (run c trace)).
Proof.
  revert c. induction trace as [|act trace IH]; intros c Hcons; [exact Hcons|].
  cbn [run fold_left]. apply IH, consistent_step, Hcons.
Qed.

(** ** Rejections *)

Lemma invalid_strategy_iff (s : TradingStrategy) :
  _isValidStrategy s = false ↔
  priceFeedId s = 0 ∨ triggerPrice s = 0 ∨ tokenIn s = 0 ∨ tokenOut s = 0.
Proof.
  unfold _isValidStrategy.
  rewrite !andb_false_iff, !negb_false_iff, !N.eqb_eq, N.ltb_ge.
  split; intros Hbad; intuition lia.
Qed.

(** X1. For an id that was never registered, [updateStrategy],
    [deactivateAgent], [checkAndExecuteTrigger], [getAgent] and
    [checkTrigger] all stop at the first check with [AgentNotFound], whoever
    calls and whatever the arguments, before anything is written and before
    the oracle is called. *)
Theorem unknown_agent_rejected c env agentId newStrategy updateData :
  exists_ (agentOf c agentId) = false →
  updateStrategy env agentId newStrategy c = (Fail AgentNotFound, c)
  ∧ deactivateAgent env agentId c = (Fail AgentNotFound, c)
  ∧ checkAndExecuteTrigger env agentId updateData c = (Fail AgentNotFound, c)
  ∧ getAgent agentId c = (Fail AgentNotFound, c)
  ∧ checkTrigger env agentId c = (Fail AgentNotFound, c).
Proof.
  intros Hex.
  rewrite updateStrategy_run, deactivateAgent_run, checkAndExecuteTrigger_run,
    getAgent_run, checkTrigger_run. cbv zeta. rewrite Hex.
  repeat split; reflexivity.
Qed.

(** X2. A strategy with a zero feed id, a zero trigger price or a zero token
    address is refused with [InvalidStrategy] both by [createAgent] on a fresh
    id and by [updateStrategy] from the owner, with nothing written and, for
    [createAgent], before the name registry is called. *)
Theorem invalid_strategy_rejected c env agentId ensLabel strat :
  priceFeedId strat = 0 ∨ triggerPrice strat = 0 ∨ tokenIn strat = 0 ∨ tokenOut strat = 0 →
  (exists_ (agentOf c agentId) = false →
   createAgent env agentId ensLabel strat c = (Fail InvalidStrategy, c))
  ∧ (exists_ (agentOf c agentId) = true → owner (agentOf c agentId) = msg_sender env →
     updateStrategy env agentId strat c = (Fail InvalidStrategy, c)).
Proof.
  intros Hbad. apply invalid_strategy_iff in Hbad. split.
  - intros Hex. rewrite createAgent_run. cbv zeta. rewrite Hex, Hbad. reflexivity.
  - intros Hex Hown. rewrite updateStrategy_run. cbv zeta.
    apply N.eqb_eq in Hown. rewrite Hex, Hown, Hbad. reflexivity.
Qed.

(** X3. When the name registry refuses the subname, [createAgent] reverts
    and the transaction leaves no trace: no agent record, no entry in the
    caller's list, the counter as it was. *)
Theorem createAgent_needs_the_name c env agentId ensLabel strat :
  exists_ (agentOf c agentId) = false →
  _isValidStrategy strat = true →
  setSubnodeRecord (baseNode (registry c)) (keccak256 (encodePacked_string ensLabel))
    (msg_sender env) 0 0 (ensState c) = None →
  transact (createAgent env agentId ensLabel strat) c = Reverted CalleeReverted c
  ∧ createAgent env agentId ensLabel strat c = (Fail CalleeReverted, c).
Proof.
  intros Hex Hvalid Hens. unfold transact. rewrite createAgent_run. cbv zeta.
  rewrite Hex, Hvalid, Hens. split; reflexivity.
Qed.

(** ** What holds in every state reached from deployment *)

(** X4. In every state reached from a freshly deployed registry by any
    sequence of calls, every existing agent carries a strategy that passes
    [_isValidStrategy]. *)
Theorem stored_strategies_are_valid b (o : O) (e : E) (trace : list (Action O E)) agentId :
  let c := run (mkChain (constructor b) o e []) trace in
  exists_ (agentOf c agentId) = true →
  _isValidStrategy (strategy (agentOf c agentId)) = true.
Proof.
  intros c Hex.
  destruct (consistent_run trace (mkChain (constructor b) o e [])
              (constructor_consistent b)) as (Hmap & _).
  apply (Hmap agentId). apply lookup_of_existing. exact Hex.
Qed.

(** X5. In every state reached from deployment, [getUserAgents(u)] lists
    exactly the ids of the existing agents owned by [u], each once. *)
Theorem getUserAgents_lists_the_owned_agents
    b (o : O) (e : E) (trace : list (Action O E)) u :
  let c := run (mkChain (constructor b) o e []) trace in
  ∃ ids, getUserAgents u c = (Done ids, c)
    ∧ NoDup ids
    ∧ ∀ agentId, agentId ∈ ids ↔
        exists_ (agentOf c agentId) = true ∧ owner (agentOf c agentId) = u.
Proof.
  intros c.
  destruct (consistent_run trace (mkChain (constructor b) o e [])
              (constructor_consistent b)) as (Hmap & _ & Hnodup & Hidx & _).
  fold c in Hmap, Hnodup, Hidx.
  exists (userAgents (registry c) !!! u). split; [reflexivity|].
  split; [apply Hnodup|].
  intros agentId. rewrite Hidx. unfold agentOf. split.
  - intros (a & Hk & Hown). rewrite (existing_of_lookup _ _ _ Hk).
    split; [apply (Hmap _ _ Hk) | exact Hown].
  - intros [Hex Hown]. exists (agents (registry c) !!! agentId).
    split; [apply lookup_of_existing, Hex | exact Hown].
Qed.

(** X6. In every state reached from deployment, [agentCount] is the number
    of registered agents: the size of the agents map, whose keys are exactly
    the ids of existing agents. *)
Theorem agentCount_counts_the_agents b (o : O) (e : E) (trace : list (Action O E)) :
  let c := run (mkChain (constructor b) o e []) trace in
  agentCount (registry c) = N.of_nat (size (agents (registry c)))
  ∧ ∀ agentId, exists_ (agentOf c agentId) = true ↔ agentId ∈ dom (agents (registry c)).
Proof.
  intros c.
  destruct (consistent_run trace (mkChain (constructor b) o e [])
              (constructor_consistent b)) as (Hmap & Hcount & _).
  fold c in Hmap, Hcount. split; [exact Hcount|].
  intros agentId. rewrite elem_of_dom. unfold agentOf. split.
  - intros Hex. rewrite (lookup_of_existing _ _ Hex). eauto.
  - intros [a Hk]. rewrite (existing_of_lookup _ _ _ Hk). apply (Hmap _ _ Hk).
Qed.

(** X7. In every state reached from deployment, an entry of
    [ensNodeToAgentId] never dangles: it names an existing agent whose
    [ensNode] is the key. *)
Theorem ensNodeToAgentId_points_at_agents
    b (o : O) (e : E) (trace : list (Action O E)) node agentId :
  let c := run (mkChain (constructor b) o e []) trace in
  ensNodeToAgentId (registry c) !! node = Some agentId →
  exists_ (agentOf c agentId) = true ∧ ensNode (agentOf c agentId) = node.
Proof.
  intros c Hnd.
  destruct (consistent_run trace (mkChain (constructor b) o e [])
              (constructor_consistent b)) as (Hmap & _ & _ & _ & Hnode).
  fold c in Hmap, Hnode.
  destruct (Hnode node agentId Hnd) as (a & Hk & Ha).
  unfold agentOf. rewrite (existing_of_lookup _ _ _ Hk).
  split; [apply (Hmap _ _ Hk) | exact Ha].
Qed.

(** ** What no call changes *)

Lemma identity_step c (act : Action O E) agentId :
  exists_ (agentOf c agentId) = true →
  identity (agentOf (step c act) agentId) = identity (agentOf c agentId).
Proof.
  intros Hex.
  destruct (step_agent c act agentId)
    as [->|[(env & label & s & -> & Hnew & _)
          |[(env & ns & -> & _ & _ & _ & ->)
           |[(env & ud & -> & _ & _ & _ & _ & ->)
            |(env & -> & _ & _ & ->)]]]];
    first [reflexivity | congruence].
Qed.

(** X8. Once an agent exists, its owner, ENS node, ENS name, creation time
    and existence flag are the same in every later state, whatever calls are
    made by whomever: the contract has no transfer, rename or delete. *)
Theorem identity_is_permanent (trace : list (Action O E)) c agentId :
  exists_ (agentOf c agentId) = true →
  let a := agentOf c agentId in
  let a' := agentOf (run c trace) agentId in
  owner a' = owner a ∧ ensNode a' = ensNode a ∧ ensName a' = ensName a
  ∧ createdAt a' = createdAt a ∧ exists_ a' = true.
Proof.
  intros Hex a a'. subst a a'.
  assert (Hid : identity (agentOf (run c trace) agentId) = identity (agentOf c agentId)).
  { revert c Hex. induction trace as [|act trace IH]; intros c Hex; [reflexivity|].
    cbn [run fold_left]. pose proof (identity_step c act agentId Hex) as Hstep.
    fold (run (step c act) trace). rewrite IH.
    - exact Hstep.
    - apply identity_fields in Hstep as (_ & _ & _ & _ & He). congruence. }
  apply identity_fields in Hid as (Ho & Hn & Hname & Hcr & He).
  repeat split; congruence.
Qed.

(** ** The cooldown window *)

Lemma window_step c (act : Action O E) agentId cd t :
  exists_ (agentOf c agentId) = true →
  cooldownPeriod (strategy (agentOf c agentId)) = cd →
  t <= lastExecuted (strategy (agentOf c agentId)) →
  replaces agentId act = false →
  exists_ (agentOf (step c act) agentId) = true
  ∧ cooldownPeriod (strategy (agentOf (step c act) agentId)) = cd
  ∧ t <= lastExecuted (strategy (agentOf (step c act) agentId)).
Proof.
  intros Hex Hcd Hlast Hact.
  destruct (step_agent c act agentId)
    as [->|[(env & label & s & -> & Hnew & _)
          |[(env & ns & -> & _)
           |[(env & ud & -> & _ & _ & _ & Hcool & ->)
            |(env & -> & _ & _ & ->)]]]].
  - auto.
  - congruence.
  - cbn [replaces] in Hact. rewrite N.eqb_refl in Hact. discriminate.
  - cbn. repeat split; [assumption | assumption | lia].
  - cbn. auto.
Qed.

Lemma window_run (trace : list (Action O E)) c agentId cd t :
  exists_ (agentOf c agentId) = true →
  cooldownPeriod (strategy (agentOf c agentId)) = cd →
  t <= lastExecuted (strategy (agentOf c agentId)) →
  forallb (λ act, negb (replaces agentId act)) trace = true →
  exists_ (agentOf (run c trace) agentId) = true
  ∧ cooldownPeriod (strategy (agentOf (run c trace) agentId)) = cd
  ∧ t <= lastExecuted (strategy (agentOf (run c trace) agentId)).
Proof.
  revert c. induction trace as [|act trace IH]; intros c Hex Hcd Hlast Hall.
  - auto.
  - cbn [forallb] in Hall. apply andb_prop in Hall as [Hact Hrest].
    apply negb_true_iff in Hact.
    destruct (window_step c act agentId cd t Hex Hcd Hlast Hact) as (Hex' & Hcd' & Hlast').
    cbn [run fold_left]. apply (IH (step c act) Hex' Hcd' Hlast' Hrest).
Qed.

Lemma early_call_fails c env agentId updateData :
  exists_ (agentOf c agentId) = true →
  block_timestamp env <
    lastExecuted (strategy (agentOf c agentId)) + cooldownPeriod (strategy (agentOf c agentId)) →
  committed (transact (checkAndExecuteTrigger env agentId updateData) c) = false.
Proof.
  intros Hex Hearly.
  destruct (transact _ c) as [u c'|] eqn:Htx; [|reflexivity].
  pose proof (checkAndExecuteTrigger_committed_inv _ _ _ _ _ _ Htx) as Hinv.
  cbv zeta in Hinv. destruct Hinv as (_ & _ & _ & _ & _ & _ & _ & _ & Hcool & _).
  lia.
Qed.

(** X9. At most one execution per cooldown window. After a committed
    [checkAndExecuteTrigger] at block time [t], no call at a block time
    before [t + cooldownPeriod] commits for that agent, whoever calls, with
    whatever update data and price, in any state reached by calls that do not
    replace the agent's strategy. *)
Theorem one_execution_per_cooldown
    c env agentId updateData (trace : list (Action O E)) env' updateData' :
  committed (transact (checkAndExecuteTrigger env agentId updateData) c) = true →
  forallb (λ act, negb (replaces agentId act)) trace = true →
  block_timestamp env' <
    block_timestamp env + cooldownPeriod (strategy (agentOf c agentId)) →
  committed
    (transact (checkAndExecuteTrigger env' agentId updateData')
       (run (post (transact (checkAndExecuteTrigger env agentId updateData) c)) trace))
  = false.
Proof.
  intros Hok Hall Hearly.
  destruct (transact (checkAndExecuteTrigger env agentId updateData) c)
    as [u c1|] eqn:Htx; [|discriminate].
  pose proof (checkAndExecuteTrigger_committed_inv _ _ _ _ _ _ Htx) as Hinv.
  cbv zeta in Hinv. destruct Hinv as (o' & p & v & Hex & _ & _ & _ & _ & _ & _ & _ & Hc1).
  cbn [post].
  assert (Hafter : exists_ (agentOf c1 agentId) = true
                   ∧ cooldownPeriod (strategy (agentOf c1 agentId))
                     = cooldownPeriod (strategy (agentOf c agentId))
                   ∧ block_timestamp env <= lastExecuted (strategy (agentOf c1 agentId))).
  { rewrite Hc1. unfold agentOf. cbn [registry set_agents agents].
    rewrite lookup_total_insert_eq. cbn. repeat split; [exact Hex | lia]. }
  destruct Hafter as (Hex1 & Hcd1 & Hlast1).
  destruct (window_run trace c1 agentId _ _ Hex1 Hcd1 Hlast1 Hall) as (Hex2 & Hcd2 & Hlast2).
  apply early_call_fails; [exact Hex2|]. rewrite Hcd2. lia.
Qed.

(** ** The price gates of an execution *)

(** X10. For an existing, active agent whose oracle read passes: a price
    with publish time 0 is refused with [PriceNotUpdated] before the cooldown
    is looked at; once the cooldown has expired, a price that does not meet
    the condition is refused with [TriggerNotMet], and a price whose
    conversion overflows with the panic of the conversion. In each case the
    transaction leaves the chain as it was, so the cooldown clock is not
    started by a refused call. *)
Theorem price_gates c env agentId updateData o' p :
  let s := strategy (agentOf c agentId) in
  let now := block_timestamp env in
  let call := transact (checkAndExecuteTrigger env agentId updateData) c in
  exists_ (agentOf c agentId) = true → isActive s = true →
  (if (0 <? length updateData)%nat
   then updatePriceFeeds updateData (msg_value env) now (pythState c)
   else Some (pythState c)) = Some o' →
  getPriceNoOlderThan (priceFeedId s) 300 now o' = Some p →
  (publishTime p = 0 → call = Reverted PriceNotUpdated c)
  ∧ (publishTime p ≠ 0 →
     lastExecuted s + cooldownPeriod s <= MAX_UINT256 →
     lastExecuted s + cooldownPeriod s <= now →
     (∀ v, normalize (price p) (expo p) = Done v → triggerMet s v = false →
        call = Reverted TriggerNotMet c)
     ∧ (∀ err, normalize (price p) (expo p) = Fail err → call = Reverted err c)).
Proof.
  intros s now call Hex Hact Hupd Hget.
  assert (Hrun : call =
    match (if publishTime p =? 0 then (Fail PriceNotUpdated, c)
           else match checked_add (lastExecuted s) (cooldownPeriod s) with
                | Fail e => (Fail e, c)
                | Done ready =>
                    if now <? ready then (Fail CooldownNotExpired, c)
                    else match normalize (price p) (expo p) with
                         | Fail e => (Fail e, c)
                         | Done v =>
                             if negb (triggerMet s v) then (Fail TriggerNotMet, c)
                             else (Done (), c)
                         end
                end) with
    | (Done u, _) => call
    | (Fail e, _) => Reverted e c
    end).
  { subst call. unfold transact. rewrite checkAndExecuteTrigger_run. cbv zeta.
    fold s. fold now. rewrite Hex, Hact. cbn [negb]. rewrite Hupd, Hget.
    destruct (publishTime p =? 0); [reflexivity|].
    destruct (checked_add _ _) as [ready|]; [|reflexivity].
    destruct (now <? ready); [reflexivity|].
    destruct (normalize _ _) as [v|]; [|reflexivity].
    destruct (triggerMet s v); reflexivity. }
  split.
  - intros Hpub. rewrite Hrun. apply N.eqb_eq in Hpub. rewrite Hpub. reflexivity.
  - intros Hpub Hfit Hcool. apply N.eqb_neq in Hpub. apply N.ltb_ge in Hcool.
    split.
    + intros v Hnorm Hmet. rewrite Hrun, Hpub, (checked_add_fits _ _ Hfit), Hcool,
        Hnorm, Hmet. reflexivity.
    + intros err Hnorm. rewrite Hrun, Hpub, (checked_add_fits _ _ Hfit), Hcool, Hnorm.
      reflexivity.
Qed.

(** X11. If [checkAndExecuteTrigger] commits without update data, at a block
    where the oracle's plain read of the feed agrees with its read no older
    than 300 seconds, then [checkTrigger] in the same block answers
    [met = true]. *)
Theorem committed_execution_is_visible_to_checkTrigger c env agentId :
  let s := strategy (agentOf c agentId) in
  committed (transact (checkAndExecuteTrigger env agentId []) c) = true →
  getPrice (priceFeedId s) (block_timestamp env) (pythState c)
    = getPriceNoOlderThan (priceFeedId s) 300 (block_timestamp env) (pythState c) →
  ∃ v, checkTrigger env agentId c = (Done (true, v), c).
Proof.
  intros s Hok Hsame. subst s.
  destruct (transact _ c) as [u c'|] eqn:Htx; [|discriminate].
  pose proof (checkAndExecuteTrigger_committed_inv _ _ _ _ _ _ Htx) as Hinv.
  cbv zeta in Hinv. cbn [length Nat.ltb Nat.leb] in Hinv.
  destruct Hinv as (o' & p & v & Hex & _ & [= <-] & Hget & _ & _ & Hnorm & Hmet & _).
  exists v. rewrite checkTrigger_run. cbv zeta.
  rewrite Hex. cbn [negb]. rewrite Hsame, Hget, Hnorm, Hmet. reflexivity.
Qed.

(** ** Owner calls that commit *)

Lemma set_isActive_id a : isActive (strategy a) = false → set_isActive a false = a.
Proof. destruct a as [? ? ? [] ? ?]. cbn. intros ->. reflexivity. Qed.

(** X12. [deactivateAgent] by the owner of an existing agent always commits,
    also on an agent that is already inactive; it clears [isActive] and
    changes nothing else of the record, and on an already inactive agent the
    storage is left exactly as it was. *)
Theorem deactivateAgent_by_owner c env agentId :
  exists_ (agentOf c agentId) = true →
  owner (agentOf c agentId) = msg_sender env →
  ∃ c', transact (deactivateAgent env agentId) c = Committed () c'
    ∧ agentOf c' agentId = set_isActive (agentOf c agentId) false
    ∧ (∀ other, other ≠ agentId → agentOf c' other = agentOf c other)
    ∧ (isActive (strategy (agentOf c agentId)) = false → registry c' = registry c).
Proof.
  intros Hex Hown. unfold transact. rewrite deactivateAgent_run. cbv zeta.
  apply N.eqb_eq in Hown. rewrite Hex, Hown. cbn [negb].
  eexists. split; [reflexivity|].
  unfold agentOf. cbn [registry set_agents agents]. split; [|split].
  - apply lookup_total_insert_eq.
  - intros other Hne. apply lookup_total_insert_ne. congruence.
  - intros Hoff. rewrite (set_isActive_id _ Hoff).
    unfold agentOf in Hex. unfold set_agents.
    rewrite (insert_id _ _ _ (lookup_of_existing _ _ Hex)).
    destruct (registry c); reflexivity.
Qed.

(** X13. [updateStrategy] by the owner with a valid strategy commits, and
    [getAgent] then returns the supplied strategy verbatim on the same
    owner, node, name and creation time; no other agent, list or counter
    changes. *)
Theorem updateStrategy_then_getAgent c env agentId newStrategy :
  exists_ (agentOf c agentId) = true →
  owner (agentOf c agentId) = msg_sender env →
  _isValidStrategy newStrategy = true →
  ∃ c' a',
    transact (updateStrategy env agentId newStrategy) c = Committed () c'
    ∧ transact (getAgent agentId) c' = Committed a' c'
    ∧ strategy a' = newStrategy
    ∧ identity a' = identity (agentOf c agentId)
    ∧ (∀ other, other ≠ agentId → agentOf c' other = agentOf c other)
    ∧ userAgents (registry c') = userAgents (registry c)
    ∧ ensNodeToAgentId (registry c') = ensNodeToAgentId (registry c)
    ∧ agentCount (registry c') = agentCount (registry c).
Proof.
  intros Hex Hown Hvalid. unfold transact at 1. rewrite updateStrategy_run. cbv zeta.
  apply N.eqb_eq in Hown. rewrite Hex, Hown, Hvalid. cbn [negb].
  eexists _, (set_strategy (agentOf c agentId) newStrategy).
  split; [reflexivity|].
  unfold transact. rewrite getAgent_run.
  unfold agentOf. cbn [registry set_agents agents userAgents ensNodeToAgentId agentCount].
  rewrite lookup_total_insert_eq. cbn [set_strategy exists_]. fold (agentOf c agentId).
  rewrite Hex. repeat split; try reflexivity.
  intros other Hne. apply lookup_total_insert_ne. congruence.
Qed.

(** ** Registration *)

Lemma createAgent_committed_inv env agentId ensLabel strat c nd c' :
  transact (createAgent env agentId ensLabel strat) c = Committed nd c' →
  let r := registry c in
  let label := keccak256 (encodePacked_string ensLabel) in
  let node := keccak256 (encodePacked_bytes32 (baseNode r) ++ encodePacked_bytes32 label) in
  ∃ sub e',
    exists_ (agentOf c agentId) = false
    ∧ _isValidStrategy strat = true
    ∧ setSubnodeRecord (baseNode r) label (msg_sender env) 0 0 (ensState c) = Some (sub, e')
    ∧ nd = node
    ∧ c' = mkChain
             (mkRegistry (baseNode r)
                (<[agentId := mkAgent (msg_sender env) node (ensLabel +:+ ".yourdomain.eth")
                                strat (block_timestamp env) true]> (agents r))
                (<[msg_sender env := (userAgents r !!! msg_sender env) ++ [agentId]]>
                   (userAgents r))
                (<[node := agentId]> (ensNodeToAgentId r))
                (agentCount r + 1))
             (pythState c) e'
             (events c ++ [AgentCreated agentId (msg_sender env) node
                             (ensLabel +:+ ".yourdomain.eth")]).
Proof.
  unfold transact. rewrite createAgent_run. cbv zeta.
  destruct (exists_ (agentOf c agentId)); [discriminate|].
  destruct (_isValidStrategy strat); [|discriminate]. cbn [negb].
  destruct (setSubnodeRecord _ _ _ _ _ _) as [[sub e']|]; [|discriminate].
  destruct (_ <=? _); [|discriminate].
  intros [= <- <-]. exists sub, e'. repeat split; reflexivity.
Qed.

(** X14. A committed [createAgent] puts the new id at the end of the
    caller's list and in no other list, adds one to [agentCount], returns the
    node it stored in the record, and makes [ensNodeToAgentId] of that node
    the new id; every other agent is as before. *)
Theorem createAgent_bookkeeping c env agentId ensLabel strat nd c' :
  transact (createAgent env agentId ensLabel strat) c = Committed nd c' →
  getUserAgents (msg_sender env) c'
    = (Done (userAgents (registry c) !!! msg_sender env ++ [agentId]), c')
  ∧ (∀ u, u ≠ msg_sender env → getUserAgents u c' = (fst (getUserAgents u c), c'))
  ∧ agentCount (registry c') = agentCount (registry c) + 1
  ∧ ensNode (agentOf c' agentId) = nd
  ∧ ensNodeToAgentId (registry c') !! nd = Some agentId
  ∧ (∀ other, other ≠ agentId → agentOf c' other = agentOf c other)
  ∧ baseNode (registry c') = baseNode (registry c).
Proof.
  intros Htx.
  pose proof (createAgent_committed_inv _ _ _ _ _ _ _ Htx) as Hinv. cbv zeta in Hinv.
  destruct Hinv as (sub & e' & _ & _ & _ & -> & ->).
  unfold getUserAgents, sload, agentOf.
  cbn [registry agents userAgents ensNodeToAgentId agentCount baseNode fst].
  repeat split.
  - rewrite lookup_total_insert_eq. reflexivity.
  - intros u Hne. rewrite lookup_total_insert_ne by congruence. reflexivity.
  - rewrite lookup_total_insert_eq. reflexivity.
  - apply lookup_insert_eq.
  - intros other Hne. apply lookup_total_insert_ne. congruence.
Qed.

(** X15. Labels are not reserved. When two agents are registered under the
    same label (by anyone, with different ids), both records carry the same
    ENS node and the same ENS name, and [ensNodeToAgentId] of that node names
    the second agent only. *)
Theorem same_label_same_node c env1 env2 id1 id2 ensLabel s1 s2 n1 n2 c1 c2 :
  transact (createAgent env1 id1 ensLabel s1) c = Committed n1 c1 →
  transact (createAgent env2 id2 ensLabel s2) c1 = Committed n2 c2 →
  id1 ≠ id2
  ∧ n1 = n2
  ∧ ensNode (agentOf c2 id1) = n1 ∧ ensNode (agentOf c2 id2) = n1
  ∧ ensName (agentOf c2 id1) = ensName (agentOf c2 id2)
  ∧ ensNodeToAgentId (registry c2) !! n1 = Some id2.
Proof.
  intros Htx1 Htx2.
  pose proof (createAgent_committed_inv _ _ _ _ _ _ _ Htx1) as Hinv1. cbv zeta in Hinv1.
  destruct Hinv1 as (sub1 & e1 & _ & _ & _ & -> & ->).
  pose proof (createAgent_committed_inv _ _ _ _ _ _ _ Htx2) as Hinv2. cbv zeta in Hinv2.
  destruct Hinv2 as (sub2 & e2 & Hfresh & _ & _ & -> & ->).
  unfold agentOf in *.
  cbn [registry agents userAgents ensNodeToAgentId agentCount baseNode] in *.
  assert (Hne : id1 ≠ id2).
  { intros ->. rewrite lookup_total_insert_eq in Hfresh. discriminate. }
  split; [exact Hne|]. split; [reflexivity|].
  rewrite lookup_total_insert_ne by congruence.
  rewrite !lookup_total_insert_eq. cbn [ensNode ensName].
  repeat split. apply lookup_insert_eq.
Qed.

(** ** Events *)


(** ** The two contracts together *)

(** X17. Pushing update data through [PythPriceConsumer.updatePriceFeeds]
    and then calling [checkAndExecuteTrigger] without update data (same
    block, same value) decides like the single call that carries the update
    data: the same commit or the same error, the same registry storage, and
    on commit the same chain state. When the consumer's push reverts, the
    single call does not commit. *)
Theorem consumer_update_then_execute c env agentId updateData :
  (0 < length updateData)%nat →
  let direct := transact (checkAndExecuteTrigger env agentId updateData) c in
  match transact (PythPriceConsumer.updatePriceFeeds env updateData) c with
  | Committed _ c1 =>
      let later := transact (checkAndExecuteTrigger env agentId []) c1 in
      committed later = committed direct
      ∧ registry (post later) = registry (post direct)
      ∧ (committed direct = true → post later = post direct)
      ∧ (∀ err, direct = Reverted err c → later = Reverted err c1)
  | Reverted _ _ => committed direct = false
  end.
Proof.
  intros Hlen direct. subst direct. apply Nat.ltb_lt in Hlen.
  unfold PythPriceConsumer.updatePriceFeeds, pyth_call.
  unfold transact. rewrite !checkAndExecuteTrigger_run. cbv zeta. rewrite Hlen.
  destruct (updatePriceFeeds updateData (msg_value env) (block_timestamp env) (pythState c))
    as [o'|] eqn:Hupd.
  - rewrite checkAndExecuteTrigger_run. cbv zeta.
    unfold agentOf. cbn [registry pythState ensState events length Nat.ltb Nat.leb].
    destruct (exists_ _); [|cbn; repeat split; congruence].
    destruct (isActive _); [|cbn; repeat split; congruence]. cbn [negb].
    destruct (getPriceNoOlderThan _ _ _ _) as [p|]; [|cbn; repeat split; congruence].
    destruct (publishTime p =? 0); [cbn; repeat split; congruence|].
    destruct (checked_add _ _) as [ready|]; [|cbn; repeat split; congruence].
    destruct (_ <? ready); [cbn; repeat split; congruence|].
    destruct (normalize _ _) as [v|]; [|cbn; repeat split; congruence].
    destruct (triggerMet _ v); cbn; repeat split; congruence.
  - destruct (exists_ _); [|reflexivity].
    destruct (isActive _); reflexivity.
Qed.

(** X18. The consumer's [getPriceNoOlderThan(feed, 300)] predicts the price
    gate of an execution without update data on an existing, active agent
    watching [feed]: when the probe reverts the execution reverts with the
    callee's failure, when it reports publish time 0 the execution reverts
    with [PriceNotUpdated], and an execution that commits implies a probe
    that returns a non-zero publish time. *)
Theorem consumer_probe_predicts_price_gate c env agentId :
  exists_ (agentOf c agentId) = true →
  isActive (strategy (agentOf c agentId)) = true →
  let feed := priceFeedId (strategy (agentOf c agentId)) in
  let probe := fst (PythPriceConsumer.getPriceNoOlderThan env feed 300 c) in
  let call := transact (checkAndExecuteTrigger env agentId []) c in
  (probe = Fail CalleeReverted → call = Reverted CalleeReverted c)
  ∧ (∀ m cf, probe = Done (m, cf, 0) → call = Reverted PriceNotUpdated c)
  ∧ (committed call = true → ∃ m cf t, probe = Done (m, cf, t) ∧ t ≠ 0).
Proof.
  intros Hex Hact feed probe call. subst feed probe call.
  unfold PythPriceConsumer.getPriceNoOlderThan. run_body.
  unfold transact. rewrite checkAndExecuteTrigger_run. cbv zeta.
  rewrite Hex, Hact. cbn [negb length Nat.ltb Nat.leb].
  destruct (getPriceNoOlderThan _ _ _ _) as [p|]; cbn [fst].
  - split; [discriminate|]. split.
    + intros m cf [= _ _ Hpub]. rewrite Hpub. reflexivity.
    + destruct (N.eqb_spec (publishTime p) 0) as [|Hpub]; [discriminate|].
      intros _. eauto.
  - split; [reflexivity|]. split; [discriminate|]. discriminate.
Qed.

End Extras.

(** ** The comparison and the conversion *)

(** X19. The trigger comparison is inclusive. A price equal to the trigger
    price meets the condition in both directions; of a buy-above and a
    sell-below strategy on the same threshold at least one is met at every
    price, and both are met only at equality. *)
Theorem trigger_comparison_is_inclusive (above below : TradingStrategy) (p : N) :
  triggerAbove above = true → triggerAbove below = false →
  triggerPrice above = triggerPrice below →
  triggerMet above (triggerPrice above) = true
  ∧ triggerMet below (triggerPrice below) = true
  ∧ (triggerMet above p = true ∨ triggerMet below p = true)
  ∧ (triggerMet above p = true ∧ triggerMet below p = true ↔ p = triggerPrice above).
Proof.
  intros Ha Hb Hsame. unfold triggerMet. rewrite Ha, Hb, <- Hsame.
  rewrite !N.leb_le. repeat split; lia.
Qed.

Lemma scaled_word_fits (u k : N) :
  u <= 2 ^ 64 - 1 → k <= 57 → u * 10 ^ k <= MAX_UINT256.
Proof.
  intros Hu Hk. transitivity ((2 ^ 64 - 1) * 10 ^ 57).
  - apply N.mul_le_mono; [exact Hu|]. apply N.pow_le_mono_r; [discriminate | exact Hk].
  - vm_compute. discriminate.
Qed.

(** X20. The conversion cannot panic on a feed whose exponent lies between
    -57 and 77: for every [int64] mantissa it returns a value. *)
Theorem normalize_never_panics_in_range (mantissa exponent : Z) :
  (-57 <= exponent <= 77)%Z →
  ∃ v, normalize mantissa exponent = Done v.
Proof.
  intros He. destruct (Z.ltb_spec exponent 0) as [Hneg|Hpos].
  - rewrite normalize_negative_exponent by lia.
    assert (Hk : Z.to_N (- exponent) <= 57) by lia.
    pose proof (scaled_word_fits _ _ (uint64_of_int64_bound mantissa) Hk) as Hfit.
    apply N.leb_le in Hfit. rewrite Hfit.
    assert (Hk' : (Z.to_N (- exponent) <=? 77) = true) by (apply N.leb_le; lia).
    rewrite Hk'. eauto.
  - rewrite normalize_nonnegative_exponent by lia.
    assert (Hk' : (Z.to_N exponent <=? 77) = true) by (apply N.leb_le; lia).
    rewrite Hk'. eauto.
Qed.

(** X21. With an exponent between 20 and 77 the conversion returns 0 for
    every mantissa, so a buy-above strategy can never be met and a sell-below
    strategy is always met on such a feed. *)
Theorem normalize_is_zero_from_exponent_20 (mantissa exponent : Z) (s : TradingStrategy) :
  (20 <= exponent <= 77)%Z →
  normalize mantissa exponent = Done 0
  ∧ (triggerAbove s = false → triggerMet s 0 = true)
  ∧ (triggerAbove s = true → 0 < triggerPrice s → triggerMet s 0 = false).
Proof.
  intros He. split; [|split].
  - rewrite normalize_nonnegative_exponent by lia.
    assert (Hk' : (Z.to_N exponent <=? 77) = true) by (apply N.leb_le; lia).
    rewrite Hk'. f_equal. apply N.div_small.
    apply N.le_lt_trans with (2 ^ 64 - 1); [apply uint64_of_int64_bound|].
    apply N.lt_le_trans with (10 ^ 20); [vm_compute; reflexivity|].
    apply N.pow_le_mono_r; [discriminate | lia].
  - intros Hb. unfold triggerMet. rewrite Hb. apply N.leb_le. lia.
  - intros Ha Hpos. unfold triggerMet. rewrite Ha. apply N.leb_gt. exact Hpos.
Qed.

(** X22. A negative mantissa is read as a huge price. For a negative [int64]
    mantissa and an exponent between -57 and 0 the conversion returns a value
    of at least [2^63], which meets every buy-above condition whose trigger
    price is at most [2^63]. *)
Theorem negative_mantissa_reads_as_huge (mantissa exponent : Z) (s : TradingStrategy) :
  (- 2 ^ 63 <= mantissa < 0)%Z →
  (-57 <= exponent <= 0)%Z →
  ∃ v, normalize mantissa exponent = Done v
    ∧ 2 ^ 63 <= v
    ∧ (triggerAbove s = true → triggerPrice s <= 2 ^ 63 → triggerMet s v = true).
Proof.
  intros Hm He.
  assert (Hu : 2 ^ 63 <= uint64_of_int64 mantissa).
  { rewrite uint64_of_neg by exact Hm. lia. }
  assert (Hmet : ∀ v, 2 ^ 63 <= v →
            triggerAbove s = true → triggerPrice s <= 2 ^ 63 → triggerMet s v = true).
  { intros v Hv Ha Htp. unfold triggerMet. rewrite Ha. apply N.leb_le. lia. }
  destruct (Z.ltb_spec exponent 0) as [Hneg|Hpos].
  - rewrite normalize_negative_exponent by lia.
    assert (Hk : Z.to_N (- exponent) <= 57) by lia.
    pose proof (scaled_word_fits _ _ (uint64_of_int64_bound mantissa) Hk) as Hfit.
    apply N.leb_le in Hfit. rewrite Hfit.
    assert (Hk' : (Z.to_N (- exponent) <=? 77) = true) by (apply N.leb_le; lia).
    rewrite Hk'. eexists. split; [reflexivity|].
    assert (Hv : 2 ^ 63 <= uint64_of_int64 mantissa * 10 ^ Z.to_N (- exponent)).
    { assert (Hp : 1 <= 10 ^ Z.to_N (- exponent)).
      { change 1 with (10 ^ 0). apply N.pow_le_mono_r; [discriminate | lia]. }
      nia. }
    split; [exact Hv | apply Hmet, Hv].
  - assert (exponent = 0%Z) as -> by lia.
    rewrite normalize_nonnegative_exponent by lia.
    cbn [Z.to_N N.leb N.compare]. change (10 ^ 0) with 1. rewrite N.div_1_r.
    eexists. split; [reflexivity|]. split; [exact Hu | apply Hmet, Hu].
Qed.

(** ** The further properties on the concrete chain *)

Import Fixtures.

Lemma unknown_agent_rejected_witness :
  exists_ (agentOf genesis agent1) = false
  ∧ deactivateAgent (at_time alice 100000) agent1 genesis = (Fail AgentNotFound, genesis)
  ∧ getAgent agent1 genesis = (Fail AgentNotFound, genesis).
Proof.
  assert (Hex : exists_ (agentOf genesis agent1) = false) by (vm_compute; reflexivity).
  split; [exact Hex|].
  destruct (unknown_agent_rejected genesis (at_time alice 100000) agent1 buyDip [] Hex)
    as (_ & Hd & _ & Hg & _).
  split; [exact Hd | exact Hg].
Defined.

Lemma invalid_strategy_rejected_witness :
  (priceFeedId unpriced = 0 ∨ triggerPrice unpriced = 0
   ∨ tokenIn unpriced = 0 ∨ tokenOut unpriced = 0)
  ∧ createAgent (at_time alice 100000) agent1 "my-agent" unpriced genesis
    = (Fail InvalidStrategy, genesis)
  ∧ updateStrategy (at_time alice 100050) agent1 unpriced created
    = (Fail InvalidStrategy, created).
Proof.
  assert (Hbad : priceFeedId unpriced = 0 ∨ triggerPrice unpriced = 0
                 ∨ tokenIn unpriced = 0 ∨ tokenOut unpriced = 0)
    by (right; left; reflexivity).
  split; [exact Hbad|]. split.
  - apply (invalid_strategy_rejected genesis (at_time alice 100000) agent1 "my-agent"
             unpriced Hbad).
    vm_compute; reflexivity.
  - apply (invalid_strategy_rejected created (at_time alice 100050) agent1 "my-agent"
             unpriced Hbad); vm_compute; reflexivity.
Defined.

Lemma createAgent_needs_the_name_witness :
  exists_ (agentOf closed agent1) = false
  ∧ _isValidStrategy buyDip = true
  ∧ transact (createAgent (at_time alice 100000) agent1 "my-agent" buyDip) closed
    = Reverted CalleeReverted closed.
Proof.
  assert (Hex : exists_ (agentOf closed agent1) = false) by (vm_compute; reflexivity).
  assert (Hvalid : _isValidStrategy buyDip = true) by (vm_compute; reflexivity).
  split; [exact Hex|]. split; [exact Hvalid|].
  apply (createAgent_needs_the_name closed (at_time alice 100000) agent1 "my-agent" buyDip
           Hex Hvalid).
  reflexivity.
Defined.

Lemma stored_strategies_are_valid_witness :
  exists_ (agentOf (run deployed history) 8) = true
  ∧ _isValidStrategy (strategy (agentOf (run deployed history) 8)) = true.
Proof.
  assert (Hex : exists_ (agentOf (run deployed history) 8) = true)
    by (vm_compute; reflexivity).
  split; [exact Hex|].
  exact (stored_strategies_are_valid 0 {[ 1 := ethUsd ]} ∅ history 8 Hex).
Defined.

Lemma ensNodeToAgentId_points_at_agents_witness :
  ensNodeToAgentId (registry (run deployed history)) !! node1 = Some 8
  ∧ exists_ (agentOf (run deployed history) 8) = true
  ∧ ensNode (agentOf (run deployed history) 8) = node1.
Proof.
  assert (Hnd : ensNodeToAgentId (registry (run deployed history)) !! node1 = Some 8)
    by (vm_compute; reflexivity).
  split; [exact Hnd|].
  exact (ensNodeToAgentId_points_at_agents 0 {[ 1 := ethUsd ]} ∅ history node1 8 Hnd).
Defined.

Lemma identity_is_permanent_witness :
  exists_ (agentOf created agent1) = true
  ∧ owner (agentOf (run created quiet_trace) agent1) = owner (agentOf created agent1)
  ∧ exists_ (agentOf (run created quiet_trace) agent1) = true.
Proof.
  assert (Hex : exists_ (agentOf created agent1) = true) by (vm_compute; reflexivity).
  split; [exact Hex|].
  destruct (identity_is_permanent quiet_trace created agent1 Hex) as (Ho & _ & _ & _ & He).
  split; [exact Ho | exact He].
Defined.

Lemma one_execution_per_cooldown_witness :
  committed (transact (checkAndExecuteTrigger (at_time bob 100100) agent1 []) created) = true
  ∧ forallb (λ act, negb (replaces agent1 act)) busy_trace = true
  ∧ committed
      (transact (checkAndExecuteTrigger (at_time bob 103699) agent1 [])
         (run (post (transact (checkAndExecuteTrigger (at_time bob 100100) agent1 []) created))
            busy_trace))
    = false.
Proof.
  assert (Hok : committed
                  (transact (checkAndExecuteTrigger (at_time bob 100100) agent1 []) created)
                = true) by (vm_compute; reflexivity).
  assert (Hall : forallb (λ act, negb (replaces agent1 act)) busy_trace = true)
    by (vm_compute; reflexivity).
  split; [exact Hok|]. split; [exact Hall|].
  apply (one_execution_per_cooldown created (at_time bob 100100) agent1 [] busy_trace
           (at_time bob 103699) [] Hok Hall).
  vm_compute. reflexivity.
Defined.

Lemma price_gates_witness :
  exists_ (agentOf squatted 8) = true
  ∧ isActive (strategy (agentOf squatted 8)) = true
  ∧ transact (checkAndExecuteTrigger (at_time bob 100100) 8 []) squatted
    = Reverted TriggerNotMet squatted.
Proof.
  assert (Hex : exists_ (agentOf squatted 8) = true) by (vm_compute; reflexivity).
  assert (Hact : isActive (strategy (agentOf squatted 8)) = true)
    by (vm_compute; reflexivity).
  split; [exact Hex|]. split; [exact Hact|].
  destruct (price_gates squatted (at_time bob 100100) 8 [] (pythState squatted) ethUsd
              Hex Hact) as [_ Hgate].
  - vm_compute; reflexivity.
  - vm_compute; reflexivity.
  - destruct Hgate as [Hnot _].
    + vm_compute. discriminate.
    + vm_compute. discriminate.
    + vm_compute. discriminate.
    + apply (Hnot 30000000000000000000); vm_compute; reflexivity.
Defined.

Lemma committed_execution_is_visible_to_checkTrigger_witness :
  committed (transact (checkAndExecuteTrigger (at_time bob 100100) agent1 []) created) = true
  ∧ ∃ v, checkTrigger (at_time bob 100100) agent1 created = (Done (true, v), created).
Proof.
  assert (Hok : committed
                  (transact (checkAndExecuteTrigger (at_time bob 100100) agent1 []) created)
                = true) by (vm_compute; reflexivity).
  split; [exact Hok|].
  apply (committed_execution_is_visible_to_checkTrigger created (at_time bob 100100) agent1
           Hok).
  vm_compute. reflexivity.
Defined.

Lemma deactivateAgent_by_owner_witness :
  exists_ (agentOf deactivated agent1) = true
  ∧ owner (agentOf deactivated agent1) = msg_sender (at_time alice 100300)
  ∧ isActive (strategy (agentOf deactivated agent1)) = false
  ∧ ∃ c', transact (deactivateAgent (at_time alice 100300) agent1) deactivated
          = Committed () c'
        ∧ registry c' = registry deactivated.
Proof.
  assert (Hex : exists_ (agentOf deactivated agent1) = true) by (vm_compute; reflexivity).
  assert (Hown : owner (agentOf deactivated agent1) = msg_sender (at_time alice 100300))
    by (vm_compute; reflexivity).
  assert (Hoff : isActive (strategy (agentOf deactivated agent1)) = false)
    by (vm_compute; reflexivity).
  split; [exact Hex|]. split; [exact Hown|]. split; [exact Hoff|].
  destruct (deactivateAgent_by_owner deactivated (at_time alice 100300) agent1 Hex Hown)
    as (c' & Htx & _ & _ & Hsame).
  exists c'. split; [exact Htx | exact (Hsame Hoff)].
Defined.

Lemma updateStrategy_then_getAgent_witness :
  exists_ (agentOf created agent1) = true
  ∧ owner (agentOf created agent1) = msg_sender (at_time alice 100050)
  ∧ _isValidStrategy sellLow = true
  ∧ ∃ c' a',
      transact (updateStrategy (at_time alice 100050) agent1 sellLow) created = Committed () c'
      ∧ transact (getAgent agent1) c' = Committed a' c'
      ∧ strategy a' = sellLow.
Proof.
  assert (Hex : exists_ (agentOf created agent1) = true) by (vm_compute; reflexivity).
  assert (Hown : owner (agentOf created agent1) = msg_sender (at_time alice 100050))
    by (vm_compute; reflexivity).
  assert (Hvalid : _isValidStrategy sellLow = true) by (vm_compute; reflexivity).
  split; [exact Hex|]. split; [exact Hown|]. split; [exact Hvalid|].
  destruct (updateStrategy_then_getAgent created (at_time alice 100050) agent1 sellLow
              Hex Hown Hvalid) as (c' & a' & Htx & Hget & Hs & _).
  exists c', a'. auto.
Defined.

Lemma createAgent_bookkeeping_witness :
  transact (createAgent (at_time alice 100000) agent1 "my-agent" buyDip) genesis
    = Committed node1 created
  ∧ getUserAgents alice created = (Done [agent1], created)
  ∧ agentCount (registry created) = 1
  ∧ ensNodeToAgentId (registry created) !! node1 = Some agent1.
Proof.
  assert (Htx : transact (createAgent (at_time alice 100000) agent1 "my-agent" buyDip) genesis
                = Committed node1 created) by (vm_compute; reflexivity).
  split; [exact Htx|].
  destruct (createAgent_bookkeeping genesis (at_time alice 100000) agent1 "my-agent" buyDip
              node1 created Htx) as (Hlist & _ & Hcount & _ & Hidx & _).
  split; [exact Hlist|]. split; [exact Hcount | exact Hidx].
Defined.

Lemma same_label_same_node_witness :
  transact (createAgent (at_time alice 100000) agent1 "my-agent" buyDip) genesis
    = Committed node1 created
  ∧ transact (createAgent (at_time bob 100020) 8 "my-agent" sellLow) created
    = Committed node1 squatted
  ∧ ensNode (agentOf squatted agent1) = node1
  ∧ ensNode (agentOf squatted 8) = node1
  ∧ ensNodeToAgentId (registry squatted) !! node1 = Some 8.
Proof.
  assert (Htx1 : transact (createAgent (at_time alice 100000) agent1 "my-agent" buyDip) genesis
                 = Committed node1 created) by (vm_compute; reflexivity).
  assert (Htx2 : transact (createAgent (at_time bob 100020) 8 "my-agent" sellLow) created
                 = Committed node1 squatted) by (vm_compute; reflexivity).
  split; [exact Htx1|]. split; [exact Htx2|].
  destruct (same_label_same_node genesis (at_time alice 100000) (at_time bob 100020)
              agent1 8 "my-agent" buyDip sellLow node1 node1 created squatted Htx1 Htx2)
    as (_ & _ & H1 & H2 & _ & Hidx).
  split; [exact H1|]. split; [exact H2 | exact Hidx].
Defined.

Lemma consumer_update_then_execute_witness :
  (0 < length blob)%nat
  ∧ match transact (PythPriceConsumer.updatePriceFeeds (paying bob 1 100100) blob) created with
    | Committed _ c1 =>
        let later := transact (checkAndExecuteTrigger (paying bob 1 100100) agent1 []) c1 in
        let direct := transact (checkAndExecuteTrigger (paying bob 1 100100) agent1 blob)
                        created in
        committed later = committed direct
        ∧ registry (post later) = registry (post direct)
        ∧ (committed direct = true → post later = post direct)
        ∧ (∀ err, direct = Reverted err created → later = Reverted err c1)
    | Reverted _ _ =>
        committed (transact (checkAndExecuteTrigger (paying bob 1 100100) agent1 blob) created)
        = false
    end.
Proof.
  assert (Hlen : (0 < length blob)%nat) by (cbn; lia).
  split; [exact Hlen|].
  exact (consumer_update_then_execute created (paying bob 1 100100) agent1 blob Hlen).
Defined.

Lemma consumer_probe_predicts_price_gate_witness :
  exists_ (agentOf created agent1) = true
  ∧ isActive (strategy (agentOf created agent1)) = true
  ∧ ∃ m cf t,
      fst (PythPriceConsumer.getPriceNoOlderThan (at_time bob 100100)
             (priceFeedId (strategy (agentOf created agent1))) 300 created)
      = Done (m, cf, t) ∧ t ≠ 0.
Proof.
  assert (Hex : exists_ (agentOf created agent1) = true) by (vm_compute; reflexivity).
  assert (Hact : isActive (strategy (agentOf created agent1)) = true)
    by (vm_compute; reflexivity).
  split; [exact Hex|]. split; [exact Hact|].
  destruct (consumer_probe_predicts_price_gate created (at_time bob 100100) agent1 Hex Hact)
    as (_ & _ & Hok).
  apply Hok. vm_compute. reflexivity.
Defined.

Lemma trigger_comparison_is_inclusive_witness :
  triggerAbove buyDip = true ∧ triggerAbove sellHigh = false
  ∧ triggerPrice buyDip = triggerPrice sellHigh
  ∧ triggerMet buyDip (triggerPrice buyDip) = true
  ∧ triggerMet sellHigh (triggerPrice sellHigh) = true.
Proof.
  assert (Ha : triggerAbove buyDip = true) by reflexivity.
  assert (Hb : triggerAbove sellHigh = false) by reflexivity.
  assert (Hsame : triggerPrice buyDip = triggerPrice sellHigh) by reflexivity.
  split; [exact Ha|]. split; [exact Hb|]. split; [exact Hsame|].
  destruct (trigger_comparison_is_inclusive buyDip sellHigh 5 Ha Hb Hsame)
    as (H1 & H2 & _).
  split; [exact H1 | exact H2].
Defined.

Lemma normalize_never_panics_in_range_witness :
  (-57 <= -8 <= 77)%Z ∧ ∃ v, normalize 300000000000 (-8) = Done v.
Proof.
  assert (He : (-57 <= -8 <= 77)%Z) by lia.
  split; [exact He|].
  exact (normalize_never_panics_in_range 300000000000 (-8) He).
Defined.

Lemma normalize_is_zero_from_exponent_20_witness :
  (20 <= 20 <= 77)%Z ∧ normalize 9223372036854775807 20 = Done 0.
Proof.
  assert (He : (20 <= 20 <= 77)%Z) by lia.
  split; [exact He|].
  exact (proj1 (normalize_is_zero_from_exponent_20 9223372036854775807 20 buyDip He)).
Defined.

Lemma negative_mantissa_reads_as_huge_witness :
  (- 2 ^ 63 <= price negative < 0)%Z
  ∧ (-57 <= expo negative <= 0)%Z
  ∧ ∃ v, normalize (price negative) (expo negative) = Done v
      ∧ 2 ^ 63 <= v
      ∧ triggerMet buyDip v = true.
Proof.
  assert (Hm : (- 2 ^ 63 <= price negative < 0)%Z) by (cbn; lia).
  assert (He : (-57 <= expo negative <= 0)%Z) by (cbn; lia).
  split; [exact Hm|]. split; [exact He|].
  destruct (negative_mantissa_reads_as_huge (price negative) (expo negative) buyDip Hm He)
    as (v & Hnorm & Hbig & Hmet).
  exists v. split; [exact Hnorm|]. split; [exact Hbig|].
  apply Hmet; [reflexivity | vm_compute; discriminate].
Defined.
